(** * adkagents: a shallow embedding of the tool functions and of the
    script -> keywords -> images pipeline

  Sources embedded here:
  - [src/autonomous_agent.py]: the three tools [generate_video_content],
    [search_stock_video], [generate_audio_file] and the module start-up;
  - [src/complete_script_img_agent.py]: [VideoContentPipeline];
  - [src/script_agent.py]: the module start-up.

  Conventions.  A Python [str] is a list of characters; a character is a
  code point below 256 (Rocq's [ascii]), for which [str.lower] and
  [str.isspace] are written out in full.  A Python [int] is a [Z].  A
  call that may raise returns a [result].  Everything the program does
  not define itself (the language model, the ADK runner, the file system,
  [hash], [random], [json.loads]) is a field of the record [World]; the
  theorems quantify over every world, the examples run in concrete ones.
  Of the console output, the lines that [generate_images] prints inside
  its [try] blocks are part of the model, since a [print] that raises
  there changes what the function returns; the other [print] calls are
  not. *)

From Stdlib Require Import String Ascii List ZArith Lia DecimalString Bool.
From Stdlib Require DecimalPos DecimalZ.
From stdpp Require Import gmap strings.
Import ListNotations.

Local Open Scope Z_scope.

(** ** Python values shared by the three modules *)

Abbreviation str := (list ascii).

(** String literals: [L "abc"] is the Python string ['abc']. *)
Definition L (s : string) : str := list_ascii_of_string s.

(** The double-quote character. *)
Definition dq : ascii := "034"%char.

(** [q s] is [s] between double quotes. *)
Definition q (s : str) : str := dq :: s ++ [dq].

Definition code (c : ascii) : N := N_of_ascii c.

Module PyStr.

(** [str.isspace] on one character (code points below 256). *)
Definition isspace (c : ascii) : bool :=
  let n := code c in
  ((9 <=? n) && (n <=? 13) || (28 <=? n) && (n <=? 32)
   || (n =? 133) || (n =? 160))%N.

(** [str.lower] on one character: A-Z, and the Latin-1 capitals
    U+00C0..U+00DE except the multiplication sign U+00D7.  Below U+0100
    [str.lower] maps a character to one character; above, where the
    model does not reach, it can change the length of a string (U+0130
    becomes two characters). *)
Definition lower_char (c : ascii) : ascii :=
  let n := code c in
  if ((65 <=? n) && (n <=? 90)
      || (192 <=? n) && (n <=? 222) && negb (n =? 215))%N
  then ascii_of_N (n + 32) else c.

Definition lower (s : str) : str := map lower_char s.

Fixpoint lstrip (s : str) : str :=
  match s with
  | c :: s' => if isspace c then lstrip s' else s
  | [] => []
  end.

Definition rstrip (s : str) : str := rev (lstrip (rev s)).

Definition strip (s : str) : str := rstrip (lstrip s).

(** [s.startswith(p)] *)
Fixpoint startswith (p s : str) : bool :=
  match p, s with
  | [], _ => true
  | a :: p', b :: s' => if ascii_dec a b then startswith p' s' else false
  | _ :: _, [] => false
  end.

(** [sub in s] *)
Fixpoint contains (sub s : str) : bool :=
  startswith sub s ||
  match s with
  | [] => false
  | _ :: s' => contains sub s'
  end.

(** [s.replace(old, new)] for a non-empty [old]: scan from the left,
    replace each occurrence and resume after it.  [skip] counts the
    characters of a matched occurrence still to be dropped. *)
Fixpoint replace_from (old new s : str) (skip : nat) : str :=
  match s with
  | [] => []
  | c :: s' =>
      match skip with
      | S k => replace_from old new s' k
      | O => if startswith old s
             then new ++ replace_from old new s' (Nat.pred (length old))
             else c :: replace_from old new s' O
      end
  end.

(** [s.replace(old, new)]; with an empty [old], Python puts [new] before
    every character and at the end. *)
Definition replace (old new s : str) : str :=
  match old with
  | [] => new ++ flat_map (fun c => c :: new) s
  | _ :: _ => replace_from old new s O
  end.

(** [s.split(sep)] for a one-character separator: never the empty list. *)
Fixpoint split (sep : ascii) (s : str) : list str :=
  match s with
  | [] => [[]]
  | c :: s' =>
      if ascii_dec c sep then [] :: split sep s'
      else match split sep s' with
           | w :: ws => (c :: w) :: ws
           | [] => [[c]]
           end
  end.

(** [s.split(sep, 1)]: at most one cut, at the first separator. *)
Fixpoint split1 (sep : ascii) (s : str) : list str :=
  match s with
  | [] => [[]]
  | c :: s' =>
      if ascii_dec c sep then [[]; s']
      else match split1 sep s' with
           | w :: ws => (c :: w) :: ws
           | [] => [[c]]
           end
  end.

(** [l[-1]] on a list that [split] returned (never empty). *)
Definition last_item (l : list str) : str := List.last l [].

(** [l[:n]]: a negative bound counts from the end. *)
Definition slice_to {A} (n : Z) (l : list A) : list A :=
  if 0 <=? n then firstn (Z.to_nat n) l
  else firstn (Z.to_nat (Z.of_nat (length l) + n)) l.

(** [str(n)] for an [int]. *)
Definition of_int (n : Z) : str := L (NilZero.string_of_int (Z.to_int n)).

(** [sep.join(l)] *)
Fixpoint join (sep : str) (l : list str) : str :=
  match l with
  | [] => []
  | [x] => x
  | x :: l' => x ++ sep ++ join sep l'
  end.

(** Truth value of a string: non-empty. *)
Definition truthy (s : str) : bool :=
  match s with [] => false | _ :: _ => true end.

Definition eqb (a b : str) : bool := bool_decide (a = b).

End PyStr.


(** ** Exceptions, results, and the state of one process *)

(** The exception classes that occur, all of them subclasses of
  [Exception]; [JSONDecodeError] is the one class that a handler of the
  program names. *)
Inductive exn_class :=
| AssertionError | ModuleNotFoundError | AttributeError | TypeError
| ValueError | JSONDecodeError | OSError | RuntimeError.

Record exn := Exn { exn_cls : exn_class; exn_msg : str }.

(** [str(e)] *)
Definition str_of_exn (e : exn) : str := exn_msg e.

Inductive result (A : Type) :=
| Return (a : A)
| Raise (e : exn).
Arguments Return {A} a.
Arguments Raise {A} e.

Definition is_JSONDecodeError (e : exn) : bool :=
match exn_cls e with JSONDecodeError => true | _ => false end.

(** A call of the program on the operating system: on the file system,
  or a line for the standard output ([print(text)]). *)
Inductive fs_call :=
| Mkdir (path : str) (parents exist_ok : bool)
| OpenW (path : str)
| Write (path : str) (data : str)
| Close (path : str)
| Print (text : str).

(** The state a call runs in: the file-system calls performed so far
  (oldest first) and the number of random draws made so far. *)
Record State := { fs_log : list fs_call; draws : nat }.

(** ** JSON values: what [json.loads] returns and [json.dumps] takes *)

#[warnings="-register-all"] Inductive json :=
| JNull
| JBool (b : bool)
| JInt (n : Z)
| JFloat (lexeme : str)
| JStr (s : str)
| JList (l : list json)
| JDict (kvs : list (str * json)).

(** [d.get(k)] on the items of a dict, in insertion order. *)
Fixpoint dict_get (k : str) (kvs : list (str * json)) : option json :=
match kvs with
| [] => None
| (k', v) :: kvs' => if PyStr.eqb k k' then Some v else dict_get k kvs'
end.

Module Json.

Definition hex_digit (n : N) : ascii :=
  nth (N.to_nat n) (L "0123456789abcdef") "0"%char.

(** One character of a string under [ensure_ascii=True]: the printable
    ASCII characters stand for themselves, except the quote and the
    backslash; the rest is escaped. *)
Definition escape_char (c : ascii) : str :=
  let n := code c in
  if (n =? 34)%N then L "\" ++ [dq]
  else if (n =? 92)%N then L "\\"
  else if (n =? 10)%N then L "\n"
  else if (n =? 13)%N then L "\r"
  else if (n =? 9)%N then L "\t"
  else if (n =? 8)%N then L "\b"
  else if (n =? 12)%N then L "\f"
  else if ((32 <=? n) && (n <=? 126))%N then [c]
  else L "\u00" ++ [hex_digit (n / 16); hex_digit (n mod 16)].

Definition dumps_str (s : str) : str := q (flat_map escape_char s).

(** [json.dumps(v)] with the default separators.  The program only ever
    dumps dicts of strings and of lists of strings; a float is written
    with the lexeme it was read from. *)
Fixpoint dumps (v : json) : str :=
  match v with
  | JNull => L "null"
  | JBool true => L "true"
  | JBool false => L "false"
  | JInt n => PyStr.of_int n
  | JFloat x => x
  | JStr s => dumps_str s
  | JList l => L "[" ++ PyStr.join (L ", ") (map dumps l) ++ L "]"
  | JDict kvs =>
      L "{" ++
      PyStr.join (L ", ")
        (map (fun kv => dumps_str (fst kv) ++ L ": " ++ dumps (snd kv)) kvs)
      ++ L "}"
  end.

End Json.

(** ** The world outside the program *)

(** One event of [Runner.run_async]: whether [event.is_final_response()]
  holds and what evaluating [event.content.parts[0].text] gives. *)
Record Event := { is_final_response : bool; content_text : result str }.

(** What iterating over [runner.run_async(...)] produces: events, then
  the end of the generator or an exception raised by it. *)
Inductive stream :=
| SEnd
| SRaise (e : exn)
| SEvent (ev : Event) (rest : stream).

(** The behaviour of everything the program calls but does not define.
  [None] for a call without a result means that it did not raise. *)
Record World := {
(** [import google.generativeai as genai] inside a function body *)
import_genai : option exn;
(** [genai.configure(api_key=...)] *)
genai_configure : option exn;
(** the constructor [genai.GenerativeModel(name)] *)
GenerativeModel : str -> option exn;
(** [model.generate_content(prompt).text] *)
generate_content : str -> result str;
(** the builtin [hash] on strings, fixed for the life of a process *)
hash : str -> Z;
(** the [k]-th draw of [random]: an index, reduced modulo the length of
    the sequence that [random.choice] picks from *)
random_index : nat -> nat;
(** [json.loads] *)
json_loads : str -> result json;
(** whether a call on the operating system raises, given the
    file-system calls performed before; for a [Print], that the console
    cannot encode the text or is closed *)
fs_fault : list fs_call -> fs_call -> option exn;
(** [str(v)] for a parsed JSON value that is not a string: the builtin
    formatting of [None], booleans, numbers, lists and dicts *)
py_str : json -> str;
(** [session_service.create_session(app_name, user_id, session_id)] *)
create_session : str -> str -> str -> option exn;
(** [runner.run_async(user_id, session_id, new_message)] of the runner
    of the agent with the given name *)
run_async : str -> str -> str -> str -> stream
}.

(** ** A state and exception monad for function bodies *)

Definition M (A : Type) : Type := State -> result A * State.

Definition ret {A} (a : A) : M A := fun st => (Return a, st).

Definition raise {A} (e : exn) : M A := fun st => (Raise e, st).

Definition bind {A B} (m : M A) (k : A -> M B) : M B :=
fun st =>
  match m st with
  | (Return a, st') => k a st'
  | (Raise e, st') => (Raise e, st')
  end.

Notation "x <- m ;; k" := (bind m (fun x => k))
(at level 100, m at next level, k at level 200, right associativity).
Notation "m ;;; k" := (bind m (fun _ => k))
(at level 100, k at level 200, right associativity).

(** [try: m  except Exception as e: h e] *)
Definition try_except {A} (m : M A) (h : exn -> M A) : M A :=
fun st =>
  match m st with
  | (Return a, st') => (Return a, st')
  | (Raise e, st') => h e st'
  end.

(** A call that returns a value or raises. *)
Definition lift {A} (r : result A) : M A := fun st => (r, st).

(** A call made for its effect only. *)
Definition call (o : option exn) : M unit :=
match o with
| None => ret tt
| Some e => raise e
end.

(** A file-system call: it raises when the world says so, and is
  recorded in the log otherwise. *)
Definition fs (w : World) (c : fs_call) : M unit :=
fun st =>
  match fs_fault w (fs_log st) c with
  | Some e => (Raise e, st)
  | None => (Return tt, {| fs_log := fs_log st ++ [c]; draws := draws st |})
  end.

(** [print(text)]: it raises when the world says so; a printed line is
  not kept in the state. *)
Definition print (w : World) (text : str) : M unit :=
fun st =>
  match fs_fault w (fs_log st) (Print text) with
  | Some e => (Raise e, st)
  | None => (Return tt, st)
  end.

(** [with open(path, 'w') as f: body]: the file is closed on the way out,
  whether [body] raised or not. *)
Definition with_open_w {A} (w : World) (path : str) (body : M A) : M A :=
fs w (OpenW path) ;;;
fun st =>
  match body st with
  | (r, st') =>
      match fs w (Close path) st' with
      | (Return _, st'') => (r, st'')
      | (Raise e, st'') => (Raise e, st'')
      end
  end.

(** [random.choice(seq)] on a non-empty sequence. *)
Definition random_choice (w : World) (seq : str) : M ascii :=
fun st =>
  (Return (nth (random_index w (draws st) mod length seq)%nat seq "000"%char),
   {| fs_log := fs_log st; draws := S (draws st) |}).

(** The paths that a log opened for writing, that is, created or
  truncated. *)
Definition opened (log : list fs_call) : list str :=
flat_map (fun c => match c with OpenW p => [p] | _ => [] end) log.

(** The data written to [path] by a log, in order. *)
Definition written (path : str) (log : list fs_call) : str :=
flat_map (fun c => match c with
                   | Write p d => if PyStr.eqb p path then d else []
                   | _ => []
                   end) log.

(** ** Process start-up, common to the three modules

  Each module begins with
  [load_dotenv()] and
  [assert os.getenv("GOOGLE_API_KEY"), "Set GOOGLE_API_KEY in .env"]. *)

Module Startup.

(** [load_dotenv()] with its default [override=False]: the variables of
    the [.env] file are added to [os.environ], those already set keep
    their value.  A missing file is the empty map. *)
Definition load_dotenv (dotenv os_environ : gmap str str) : gmap str str :=
  os_environ ∪ dotenv.

(** [os.getenv(name)]: [None] when the variable is not set. *)
Definition getenv (name : str) (os_environ : gmap str str) : option str :=
  os_environ !! name.

(** The truth value of [os.getenv(...)]: [None] and [''] are false. *)
Definition truthy (v : option str) : bool :=
  match v with
  | Some s => PyStr.truthy s
  | None => false
  end.

(** What a module does at its top level once the assertion has passed. *)
Inductive step :=
| ConfigureGenai
| CreateAgent (name : str).

(** The top level of a module: the environment after [load_dotenv], the
    assertion, and then the steps the module performs, in order.  When
    the assertion fails no step is performed. *)
Definition run (body : list step) (dotenv os_environ : gmap str str)
  : result (gmap str str) * list step :=
  let env := load_dotenv dotenv os_environ in
  if truthy (getenv (L "GOOGLE_API_KEY") env)
  then (Return env, body)
  else (Raise (Exn AssertionError (L "Set GOOGLE_API_KEY in .env")), []).

End Startup.

(** ** src/autonomous_agent.py *)

Module autonomous_agent.

(** Top level: the agent [video_creator_agent] is created. *)
Definition startup := Startup.run [Startup.CreateAgent (L "video_creator_agent")].

Definition nl : ascii := "010"%char.

Definition phrases : list str := [L "any more"; L "certainly"; L "here are"].

(** One turn of the loop [for line in content_lines]. *)
Definition clean_step (content_list : list str) (line : str) : list str :=
  let line := PyStr.strip line in
  if PyStr.truthy line
     && negb (existsb (fun phrase => PyStr.contains phrase (PyStr.lower line))
                phrases)
  then
    let line :=
      if PyStr.contains (L ". ") (firstn 5 line)
      then PyStr.strip (PyStr.last_item (PyStr.split1 "."%char line))
      else line in
    if PyStr.truthy line then content_list ++ [line] else content_list
  else content_list.

(** The whole loop, from [content_list = []]. *)
Definition clean (content_lines : list str) : list str :=
  fold_left clean_step content_lines [].

Definition video_prompt (topic : str) (scene_count : Z) : str :=
  L "Write " ++ PyStr.of_int scene_count
    ++ L " concise educational points about '" ++ topic
    ++ L "'. Each point should be 1-2 sentences suitable for a video script.".

(** [{"error": str(e)}], serialized. *)
Definition error_json (e : exn) : str :=
  Json.dumps (JDict [(L "error", JStr (str_of_exn e))]).

(** The body of the [try] of [generate_video_content]. *)
Definition generate_video_content_body (w : World) (topic : str)
    (scene_count : Z) : M str :=
  call (GenerativeModel w (L "gemini-2.0-flash")) ;;;
  text <- lift (generate_content w (video_prompt topic scene_count)) ;;
  let content_lines := PyStr.split nl text in
  let content_list := clean content_lines in
  ret (Json.dumps
         (JDict [(L "content_points",
                  JList (map JStr (PyStr.slice_to scene_count content_list)))])).

(** The import and [genai.configure] come before the [try]. *)
Definition generate_video_content (w : World) (topic : str)
    (scene_count : Z) : M str :=
  call (import_genai w) ;;;
  call (genai_configure w) ;;;
  try_except (generate_video_content_body w topic scene_count)
    (fun e => ret (error_json e)).

Definition video_url (video_id : Z) (clean_query ext : str) : str :=
  L "https://media.gettyimages.com/id/" ++ PyStr.of_int video_id
    ++ L "/video/" ++ clean_query ++ ext.

Definition search_stock_video (w : World) (query : str) : M str :=
  try_except
    (let clean_query :=
       PyStr.replace (L ".") []
         (PyStr.replace (L " ") (L "-") (PyStr.lower query)) in
     let video_id := Z.abs (hash w query) mod 10000000 in
     ret (Json.dumps
            (JDict [(L "video", JStr (video_url video_id clean_query (L ".mp4")));
                    (L "poster", JStr (video_url video_id clean_query (L ".jpg")))])))
    (fun e => ret (error_json e)).

(** [string.ascii_uppercase + string.digits] *)
Definition alphabet : str := L "ABCDEFGHIJKLMNOPQRSTUVWXYZ0123456789".

(** [''.join(random.choice(alphabet) for _ in range(n))] *)
Fixpoint random_chars (w : World) (n : nat) : M str :=
  match n with
  | O => ret []
  | S n' =>
      c <- random_choice w alphabet ;;
      cs <- random_chars w n' ;;
      ret (c :: cs)
  end.

Definition audio_filename (index : Z) (random_chars : str) : str :=
  L "static/audio/" ++ PyStr.of_int index ++ L "_" ++ random_chars ++ L ".mp3".

Definition audio_line1 (text : str) : str :=
  L "Audio placeholder for: " ++ text ++ [nl].

Definition audio_line2 : str :=
  L "Use Google Text-to-Speech or ElevenLabs API to generate actual audio"
    ++ [nl].

(** The body of the [try] of [generate_audio_file]. *)
Definition generate_audio_file_body (w : World) (text : str) (index : Z)
  : M str :=
  fs w (Mkdir (L "static/audio") true true) ;;;
  random_chars <- random_chars w 4 ;;
  let filename := audio_filename index random_chars in
  let placeholder := PyStr.replace (L ".mp3") (L ".txt") filename in
  with_open_w w placeholder
    (fs w (Write placeholder (audio_line1 text)) ;;;
     fs w (Write placeholder audio_line2)) ;;;
  ret (Json.dumps
         (JDict [(L "audio_file", JStr filename); (L "text", JStr text)])).

Definition generate_audio_file (w : World) (text : str) (index : Z) : M str :=
  try_except (generate_audio_file_body w text index)
    (fun e => ret (error_json e)).

End autonomous_agent.

(** ** src/script_agent.py *)

Module script_agent.

(** Top level: the agent [gemini_agent] is created. *)
Definition startup := Startup.run [Startup.CreateAgent (L "gemini_agent")].

End script_agent.

(** ** [pathlib] on POSIX: the part of [PurePosixPath] the program uses *)

Module Pathlib.

Record Path := { root : str; parts : list str }.

(** The root of a path string: ["/"], exactly two slashes ["//"], or
    none. *)
Definition root_of (s : str) : str :=
  if PyStr.startswith (L "//") s && negb (PyStr.startswith (L "///") s)
  then L "//"
  else if PyStr.startswith (L "/") s then L "/" else [].

(** The components of a path string: empty ones and ["."] are dropped. *)
Definition parts_of (s : str) : list str :=
  List.filter (fun c => PyStr.truthy c && negb (PyStr.eqb c (L ".")))
    (PyStr.split "/"%char s).

(** [Path(s)] *)
Definition of_str (s : str) : Path :=
  {| root := root_of s; parts := parts_of s |}.

(** [str(p)] *)
Definition to_str (p : Path) : str :=
  match root p, parts p with
  | [], [] => L "."
  | r, ps => r ++ PyStr.join (L "/") ps
  end.

(** [p / name]: an absolute [name] replaces [p]. *)
Definition div (p : Path) (name : str) : Path :=
  if PyStr.truthy (root_of name) then of_str name
  else {| root := root p; parts := parts p ++ parts_of name |}.

End Pathlib.

(** ** src/complete_script_img_agent.py *)

Module complete_script_img_agent.

(** Top level: [genai.configure], then the agents [script_agent] and
    [keyword_agent]. *)
Definition startup :=
  Startup.run [Startup.ConfigureGenai;
               Startup.CreateAgent (L "script_agent");
               Startup.CreateAgent (L "keyword_agent")].

Definition APP_NAME : str := L "demo_app".
Definition USER_ID : str := L "user1".
Definition keyword_session_id : str := L "keyword_session".



(** The loop [async for event in runner.run_async(...)] with its
    [break] at the first final response; the variable it assigns starts
    as the empty string. *)
Fixpoint final_text (s : stream) : result str :=
  match s with
  | SEnd => Return []
  | SRaise e => Raise e
  | SEvent ev rest =>
      if is_final_response ev then content_text ev else final_text rest
  end.




Definition keyword_prompt (script_content : str) : str :=
  L "You are an expert at analyzing video script content and identifying visual elements for illustrations.

Analyze this video script content and give me the search keywords for finding vector illustrations for this content.

Script content:
" ++ script_content ++ L "

Requirements:
- Extract 5-8 relevant keywords that would be good for finding vector illustrations
- Focus on visual elements, concepts, and objects mentioned in the script
- Keywords should be suitable for educational vector illustrations
- Return the output in JSON format, strictly like this: {"
    ++ q (L "keywords") ++ L ": [" ++ q (L "keyword1") ++ L ", "
    ++ q (L "keyword2") ++ L ", " ++ q (L "keyword3") ++ L "]}

Provide the keywords now:".

Definition extract_keywords (w : World) (script_content : str) : M str :=
  lift (final_text
          (run_async w (L "keyword_agent") USER_ID keyword_session_id
             (keyword_prompt script_content))).


(** [keywords_data.get("keywords", [])]: only a dict has [get]. *)
Definition get_keywords (keywords_data : json) : result json :=
  match keywords_data with
  | JDict kvs =>
      Return (match dict_get (L "keywords") kvs with
              | Some v => v
              | None => JList []
              end)
  | _ => Raise (Exn AttributeError (L "object has no attribute 'get'"))
  end.

(** [len(v)] *)
Definition py_len (v : json) : result nat :=
  match v with
  | JList l => Return (length l)
  | JStr s => Return (length s)
  | JDict kvs => Return (length kvs)
  | _ => Raise (Exn TypeError (L "object has no len()"))
  end.

(** The items that [for ... in enumerate(v)] visits: the elements of a
    list, the characters of a string, the keys of a dict. *)
Definition py_iter (v : json) : result (list json) :=
  match v with
  | JList l => Return l
  | JStr s => Return (map (fun c => JStr [c]) s)
  | JDict kvs => Return (map (fun kv => JStr (fst kv)) kvs)
  | _ => Raise (Exn TypeError (L "object is not iterable"))
  end.

Definition image_prompt (keyword : str) : str :=
  L "Create a clean, educational vector-style illustration of " ++ keyword
    ++ L ". Make it suitable for a biology educational video about cells and mitochondria. Use bright, engaging colors with a modern flat design style. The illustration should be clear and simple enough for educational purposes.".

Definition placeholder_note : str :=
  L "Note: This is a placeholder. Actual image generation requires proper Google Imagen API integration.".

(** [f"{v}"] for a parsed JSON value: a string as it is, [str(v)]
    otherwise. *)
Definition fmt (w : World) (v : json) : str :=
  match v with
  | JStr s => s
  | _ => py_str w v
  end.

(** The lines that [generate_images] prints inside its [try] blocks. *)
Definition count_line (n : nat) : str :=
  L "Generating images for " ++ PyStr.of_int (Z.of_nat n) ++ L " keywords...".

Definition turn_line (i n : nat) (keyword : str) : str :=
  L "Generating image " ++ PyStr.of_int (Z.of_nat i + 1) ++ L "/"
    ++ PyStr.of_int (Z.of_nat n) ++ L ": " ++ keyword.

Definition created_line (keyword : str) : str :=
  L "Created placeholder for: " ++ keyword.

Definition error_line (keyword : str) (e : exn) : str :=
  L "Error generating image for '" ++ keyword ++ L "': " ++ str_of_exn e.

(** The inner [try] up to the end of its [with] block, for the keyword
    at index [i] of [n]: the line is printed first, for a keyword of
    any type; only a string has [replace].  The value is the path of the
    placeholder. *)
Definition image_body (w : World) (output_folder : Pathlib.Path)
    (n i : nat) (keyword : json) : M str :=
  print w (turn_line i n (fmt w keyword)) ;;;
  match keyword with
  | JStr keyword =>
      let filename :=
        PyStr.lower (PyStr.replace (L " ") (L "_") keyword)
          ++ L "_" ++ PyStr.of_int (Z.of_nat i + 1) ++ L ".txt" in
      let filepath := Pathlib.to_str (Pathlib.div output_folder filename) in
      with_open_w w filepath
        (fs w (Write filepath
                 (L "Image prompt: " ++ image_prompt keyword
                    ++ [autonomous_agent.nl])) ;;;
         fs w (Write filepath
                 (L "Keyword: " ++ keyword ++ [autonomous_agent.nl])) ;;;
         fs w (Write filepath placeholder_note)) ;;;
      ret filepath
  | _ => raise (Exn AttributeError (L "object has no attribute 'replace'"))
  end.

(** The handler of the inner [try]: the failure is printed and the
    keyword is skipped, the list staying as it is at that moment; when
    this [print] raises too, the exception leaves the loop. *)
Definition image_handler (w : World) (generated_files : list str)
    (keyword : json) (e : exn) : M (list str) :=
  print w (error_line (fmt w keyword) e) ;;;
  ret generated_files.

(** One turn of [for i, keyword in enumerate(keywords)].  The path is
    appended to the list before the last [print] of the [try]: when that
    [print] raises, the handler finds the path in the list. *)
Definition image_step (w : World) (output_folder : Pathlib.Path) (n : nat)
    (generated_files : list str) (i : nat) (keyword : json) : M (list str) :=
  fun st =>
    match image_body w output_folder n i keyword st with
    | (Raise e, st') => image_handler w generated_files keyword e st'
    | (Return filepath, st') =>
        try_except
          (print w (created_line (fmt w keyword)) ;;;
           ret (generated_files ++ [filepath]))
          (image_handler w (generated_files ++ [filepath]) keyword) st'
    end.

Fixpoint image_loop (w : World) (output_folder : Pathlib.Path) (n i : nat)
    (keywords : list json) (generated_files : list str) : M (list str) :=
  match keywords with
  | [] => ret generated_files
  | keyword :: rest =>
      generated_files' <-
        image_step w output_folder n generated_files i keyword ;;
      image_loop w output_folder n (S i) rest generated_files'
  end.

(** The body of the outer [try] of [generate_images]. *)
Definition generate_images_body (w : World) (keywords_json : str)
    (output_folder : Pathlib.Path) : M (list str) :=
  keywords_data <- lift (json_loads w keywords_json) ;;
  keywords <- lift (get_keywords keywords_data) ;;
  n <- lift (py_len keywords) ;;
  print w (count_line n) ;;;
  call (GenerativeModel w (L "gemini-2.0-flash")) ;;;
  items <- lift (py_iter keywords) ;;
  image_loop w output_folder n 0 items [].

(** Both handlers, [except json.JSONDecodeError] and
    [except Exception], print the exception and return the empty list;
    the model takes these two [print] calls not to raise. *)
Definition generate_images (w : World) (keywords_json : str)
    (output_folder : Pathlib.Path) : M (list str) :=
  try_except (generate_images_body w keywords_json output_folder)
    (fun e => if is_JSONDecodeError e then ret [] else ret []).


End complete_script_img_agent.

(** ** Concrete worlds for the examples *)

(** A reference reader for JSON texts, used as [json.loads] in the
  examples.  Code points are below 256, so a [\u] escape above that is
  rejected. *)
Module JsonRef.

Definition is_ws (c : ascii) : bool :=
  let n := code c in ((n =? 32) || (n =? 9) || (n =? 10) || (n =? 13))%N.

Fixpoint skip_ws (s : str) : str :=
  match s with
  | c :: s' => if is_ws c then skip_ws s' else s
  | [] => []
  end.

Definition is_digit (c : ascii) : bool :=
  let n := code c in ((48 <=? n) && (n <=? 57))%N.

Definition hex_value (c : ascii) : option N :=
  let n := code c in
  if ((48 <=? n) && (n <=? 57))%N then Some (n - 48)%N
  else if ((97 <=? n) && (n <=? 102))%N then Some (n - 87)%N
  else if ((65 <=? n) && (n <=? 70))%N then Some (n - 55)%N
  else None.

(** The characters of a string literal after its opening quote. *)
Fixpoint string_body (s : str) (acc : str) : option (str * str) :=
  match s with
  | [] => None
  | c :: r =>
      if (code c =? 34)%N then Some (rev acc, r)
      else if (code c =? 92)%N then
        match r with
        | e :: r' =>
            if (code e =? 117)%N then
              match r' with
              | h1 :: h2 :: h3 :: h4 :: r'' =>
                  match hex_value h1, hex_value h2, hex_value h3, hex_value h4 with
                  | Some 0%N, Some 0%N, Some a, Some b =>
                      string_body r'' (ascii_of_N (16 * a + b) :: acc)
                  | _, _, _, _ => None
                  end
              | _ => None
              end
            else
              match
                (if (code e =? 34)%N then Some dq
                 else if (code e =? 92)%N then Some "\"%char
                 else if (code e =? 47)%N then Some "/"%char
                 else if (code e =? 98)%N then Some "008"%char
                 else if (code e =? 102)%N then Some "012"%char
                 else if (code e =? 110)%N then Some "010"%char
                 else if (code e =? 114)%N then Some "013"%char
                 else if (code e =? 116)%N then Some "009"%char
                 else None)
              with
              | Some x => string_body r' (x :: acc)
              | None => None
              end
        | [] => None
        end
      else if (code c <? 32)%N then None
      else string_body r (c :: acc)
  end.

Fixpoint digits (s : str) : str * str :=
  match s with
  | c :: s' => if is_digit c
               then let '(d, r) := digits s' in (c :: d, r)
               else ([], s)
  | [] => ([], [])
  end.

Definition int_of_digits (d : str) : Z :=
  fold_left (fun n c => 10 * n + Z.of_N (code c - 48)) d 0.

(** A number: an integer part without a superfluous leading zero, then
    an optional fraction and an optional exponent, which make it a
    float. *)
Definition number (s : str) : option (json * str) :=
  let '(neg, s1) := match s with
                    | "-"%char :: r => (true, r)
                    | _ => (false, s)
                    end in
  let '(ip, s2) := digits s1 in
  let '(ip, s2) := match ip with
                   | "0"%char :: _ :: _ => (L "0", skipn 1 s1)
                   | _ => (ip, s2)
                   end in
  match ip with
  | [] => None
  | _ =>
      let '(frac, s3) :=
        match s2 with
        | "."%char :: r =>
            let '(d, r') := digits r in
            match d with [] => ([], s2) | _ => ("."%char :: d, r') end
        | _ => ([], s2)
        end in
      let '(ex, s4) :=
        match s3 with
        | e :: r =>
            if ((code e =? 101) || (code e =? 69))%N then
              let '(sg, r1) := match r with
                               | "-"%char :: r1 => (L "-", r1)
                               | "+"%char :: r1 => (L "+", r1)
                               | _ => ([], r)
                               end in
              let '(d, r2) := digits r1 in
              match d with [] => ([], s3) | _ => (e :: sg ++ d, r2) end
            else ([], s3)
        | [] => ([], s3)
        end in
      let sign := if neg : bool then L "-" else [] in
      match frac, ex with
      | [], [] =>
          Some (JInt (if neg then - int_of_digits ip else int_of_digits ip), s4)
      | _, _ => Some (JFloat (sign ++ ip ++ frac ++ ex), s4)
      end
  end.

Definition literal (word : string) (v : json) (s : str) : option (json * str) :=
  if PyStr.startswith (L word) s
  then Some (v, skipn (length (L word)) s) else None.

(** [d[k] = v] on the items of a dict: a repeated key keeps its place and
    takes the new value. *)
Fixpoint dict_set (k : str) (v : json) (kvs : list (str * json))
  : list (str * json) :=
  match kvs with
  | [] => [(k, v)]
  | (k', v') :: rest =>
      if PyStr.eqb k k' then (k, v) :: rest else (k', v') :: dict_set k v rest
  end.

(** A value at the head of [s]; [fuel] bounds the nesting and the
    number of items, and the length of the text is always enough. *)
Fixpoint value (fuel : nat) (s : str) : option (json * str) :=
  match fuel with
  | O => None
  | S fuel =>
      match s with
      | [] => None
      | c :: r =>
          if (code c =? 34)%N then
            match string_body r [] with
            | Some (x, r') => Some (JStr x, r')
            | None => None
            end
          else if (code c =? 91)%N then
            match skip_ws r with
            | "]"%char :: r' => Some (JList [], r')
            | r' => items fuel r' []
            end
          else if (code c =? 123)%N then
            match skip_ws r with
            | "}"%char :: r' => Some (JDict [], r')
            | r' => members fuel r' []
            end
          else if (code c =? 110)%N then literal "null" JNull s
          else if (code c =? 116)%N then literal "true" (JBool true) s
          else if (code c =? 102)%N then literal "false" (JBool false) s
          else if (code c =? 78)%N then literal "NaN" (JFloat (L "NaN")) s
          else if (code c =? 73)%N
          then literal "Infinity" (JFloat (L "Infinity")) s
          else if PyStr.startswith (L "-Infinity") s
          then literal "-Infinity" (JFloat (L "-Infinity")) s
          else number s
      end
  end
with items (fuel : nat) (s : str) (acc : list json) : option (json * str) :=
  match fuel with
  | O => None
  | S fuel =>
      match value fuel s with
      | Some (v, r) =>
          match skip_ws r with
          | ","%char :: r' => items fuel (skip_ws r') (acc ++ [v])
          | "]"%char :: r' => Some (JList (acc ++ [v]), r')
          | _ => None
          end
      | None => None
      end
  end
with members (fuel : nat) (s : str) (acc : list (str * json))
  : option (json * str) :=
  match fuel with
  | O => None
  | S fuel =>
      match s with
      | c :: r =>
          if (code c =? 34)%N then
            match string_body r [] with
            | Some (k, r1) =>
                match skip_ws r1 with
                | ":"%char :: r2 =>
                    match value fuel (skip_ws r2) with
                    | Some (v, r3) =>
                        match skip_ws r3 with
                        | ","%char :: r4 =>
                            members fuel (skip_ws r4) (dict_set k v acc)
                        | "}"%char :: r4 => Some (JDict (dict_set k v acc), r4)
                        | _ => None
                        end
                    | None => None
                    end
                | _ => None
                end
            | None => None
            end
          else None
      | [] => None
      end
  end.

Definition decode_error : exn :=
  Exn JSONDecodeError (L "Expecting value").

Definition loads (s : str) : result json :=
  match value (S (length s)) (skip_ws s) with
  | Some (v, r) =>
      match skip_ws r with
      | [] => Return v
      | _ => Raise (Exn JSONDecodeError (L "Extra data"))
      end
  | None => Raise decode_error
  end.

End JsonRef.

Module Demo.

(** A process that has done nothing yet. *)
Definition st0 : State := {| fs_log := []; draws := 0 |}.

(** The directory part of a path string. *)
Definition parent (p : str) : str :=
  PyStr.join (L "/") (removelast (PyStr.split "/"%char p)).

(** Whether a log created the directory [d]. *)
Definition dir_made (log : list fs_call) (d : str) : bool :=
  existsb (fun c => match c with
                    | Mkdir p parents _ =>
                        PyStr.eqb p d
                        || parents && PyStr.startswith (d ++ L "/") p
                    | _ => false
                    end) log.

(** A file system that starts empty: opening a file for writing fails
    when its directory has not been created. *)
Definition missing_directory (log : list fs_call) (c : fs_call) : option exn :=
  match c with
  | OpenW p =>
      if dir_made log (parent p) then None
      else Some (Exn OSError (L "[Errno 2] No such file or directory"))
  | _ => None
  end.

(** [str(v)] for the values of the examples: strings without quotes or
    escapes, and a float as it was written. *)
Fixpoint py_repr (v : json) : str :=
  match v with
  | JNull => L "None"
  | JBool true => L "True"
  | JBool false => L "False"
  | JInt n => PyStr.of_int n
  | JFloat x => x
  | JStr s => L "'" ++ s ++ L "'"
  | JList l => L "[" ++ PyStr.join (L ", ") (map py_repr l) ++ L "]"
  | JDict kvs =>
      L "{" ++
      PyStr.join (L ", ")
        (map (fun kv => L "'" ++ fst kv ++ L "': " ++ py_repr (snd kv)) kvs)
      ++ L "}"
  end.

(** A hash function; any function is the hash of some process. *)
Definition sum_hash (s : str) : Z :=
  - fold_left (fun h c => 31 * h + Z.of_N (code c)) s 7.

Definition final (text : str) : stream :=
  SEvent {| is_final_response := true; content_text := Return text |} SEnd.

(** A world in which the import has the given outcome, the model
    answers [response] to every prompt, and the two agents of the
    pipeline produce the given event streams. *)
Definition world (import_outcome : option exn) (response : result str)
    (script_events keyword_events : stream) : World :=
  {| import_genai := import_outcome;
     genai_configure := None;
     GenerativeModel := fun _ => None;
     generate_content := fun _ => response;
     hash := sum_hash;
     random_index := fun k => (7 * k + 3)%nat;
     json_loads := JsonRef.loads;
     fs_fault := missing_directory;
     py_str := py_repr;
     create_session := fun _ _ _ => None;
     run_async := fun agent _ _ _ =>
                    if PyStr.eqb agent (L "script_agent")
                    then script_events else keyword_events |}.

(** The world [w] as another process has it: the hash of a string is
    salted per process. *)
Definition reseeded (salt : Z) (w : World) : World :=
  {| import_genai := import_genai w;
     genai_configure := genai_configure w;
     GenerativeModel := GenerativeModel w;
     generate_content := generate_content w;
     hash := fun s => hash w s + salt;
     random_index := random_index w;
     json_loads := json_loads w;
     fs_fault := fs_fault w;
     py_str := py_str w;
     create_session := create_session w;
     run_async := run_async w |}.

(** The world of the tools: the model answers [response]. *)
Definition tools (response : str) : World :=
  world None (Return response) SEnd SEnd.

(** The world of the pipeline: the two agents answer with these texts. *)
Definition pipeline (script_answer keywords_answer : str) : World :=
  world None (Return []) (final script_answer) (final keywords_answer).

Definition script_answer : str :=
  Json.dumps
    (JDict [(L "scenes",
             JList [JDict [(L "title", JStr (L "The powerhouse"));
                           (L "content", JList [JStr (L "Meet the mitochondria.")])]])]).

End Demo.

(** ** The specification's wording, as definitions to compare with *)

Module Spec.

(** "query lowercased, spaces replaced by hyphens, periods removed" *)
Definition slug (query : str) : str :=
  List.filter (fun c => negb (bool_decide (c = "."%char)))
    (map (fun c => if ascii_dec c " "%char then "-"%char else c)
       (PyStr.lower query)).

(** The text of a line after its first [sep]: "text up to and including
    the first period" removed. *)
Fixpoint after_first (sep : ascii) (line : str) : str :=
  match line with
  | [] => []
  | c :: r => if ascii_dec c sep then r else after_first sep r
  end.

(** "containing 'any more', 'certainly', or 'here are'
    (case-insensitive)" *)
Definition mentions_phrase (line : str) : bool :=
  existsb (fun phrase => PyStr.contains phrase (PyStr.lower line))
    [L "any more"; L "certainly"; L "here are"].

(** "first five characters contain a period followed by a space" *)
Definition numbered (line : str) : bool :=
  PyStr.contains (L ". ") (firstn 5 line).

(** A numbered line loses its numbering and the blanks around what is
    left; another line stays as it is. *)
Definition strip_numbering (line : str) : str :=
  if numbered line then PyStr.strip (after_first "."%char line) else line.

(** The lines that are kept: not blank, no phrase. *)
Definition kept (line : str) : bool :=
  PyStr.truthy line && negb (mentions_phrase line).

(** The content points of a response text, for a count that is not
    negative. *)
Definition content_points (text : str) (scene_count : Z) : list str :=
  firstn (Z.to_nat scene_count)
    (map strip_numbering
       (List.filter kept
          (map PyStr.strip (PyStr.split autonomous_agent.nl text)))).

(** The artifact descriptor of the keyword at index [i]: the path of its
    placeholder file. *)
Definition descriptor (output_folder : Pathlib.Path) (i : nat)
    (keyword : str) : str :=
  Pathlib.to_str
    (Pathlib.div output_folder
       (PyStr.lower (PyStr.replace (L " ") (L "_") keyword)
          ++ L "_" ++ PyStr.of_int (Z.of_nat i + 1) ++ L ".txt")).

(** One descriptor per keyword that is a string, numbered from [i]. *)
Fixpoint descriptors (output_folder : Pathlib.Path) (i : nat)
    (keywords : list json) : list str :=
  match keywords with
  | [] => []
  | JStr keyword :: rest =>
      descriptor output_folder i keyword
        :: descriptors output_folder (S i) rest
  | _ :: rest => descriptors output_folder (S i) rest
  end.

Definition is_str (v : json) : Prop := exists s, v = JStr s.


(** The number of keywords in a keywords payload, when it is an object
    with a list under [keywords]. *)
Definition keyword_count (r : result json) : option nat :=
  match r with
  | Return (JDict kvs) =>
      match dict_get (L "keywords") kvs with
      | Some (JList ks) => Some (length ks)
      | _ => None
      end
  | _ => None
  end.

(** The value of the API key a process sees: the environment's, else
    the [.env] file's. *)
Definition api_key (dotenv os_environ : gmap str str) : option str :=
  match os_environ !! L "GOOGLE_API_KEY" with
  | Some v => Some v
  | None => dotenv !! L "GOOGLE_API_KEY"
  end.

(** "its absence is a fatal startup precondition": without a key, or
    with an empty one, the assertion fails before any step; with a key
    the module's steps are performed. *)
Definition startup_outcome (body : list Startup.step)
    (dotenv os_environ : gmap str str)
  : result (gmap str str) * list Startup.step :=
  match api_key dotenv os_environ with
  | Some (_ :: _) => (Return (os_environ ∪ dotenv), body)
  | _ => (Raise (Exn AssertionError (L "Set GOOGLE_API_KEY in .env")), [])
  end.

(** "an object with either success fields or an [error] field",
    serialized. *)
Definition tool_result (success_fields : list str) (out : str) : Prop :=
  exists kvs,
    out = Json.dumps (JDict kvs)
    /\ (is_Some (dict_get (L "error") kvs)
        \/ Forall (fun k => is_Some (dict_get k kvs)) success_fields).


End Spec.

(** ** src/autonomous_agent.py: the agent run and [GenerateVideoADK]

    The agent [video_creator_agent] has tools, and the runner calls them
    while its generator advances: between two events the state of the
    process may change.  The events of such a run are an [estream]. *)

Module autonomous_agent_run.

(** What iterating over the runner of an agent with tools produces: each
    event comes with the rest of the run, which is given the state and
    returns it as the tool calls made up to the next event left it. *)
#[warnings="-register-all"] Inductive estream :=
| EEnd
| ERaise (e : exn)
| EEvent (ev : Event) (rest : State -> estream * State).

Definition APP_NAME : str := L "autonomous_video_app".
Definition USER_ID : str := L "user1".
Definition SESSION_ID : str := L "session1".

(** One scene of the format shown to the agent. *)
Definition scene_example (text : string) (comma : string) : str :=
  L "{
        " ++ q (L "text") ++ L ": " ++ q (L text) ++ L ",
        " ++ q (L "video") ++ L ": " ++ q (L "stock_video_url") ++ L ",
        " ++ q (L "poster") ++ L ": " ++ q (L "poster_image_url") ++ L comma
    ++ L "
        " ++ q (L "audio") ++ L ": " ++ q (L "audio_file_path") ++ L "
    },".

Definition content_prompt (topic language : str) (scene_count : Z) : str :=
  L "Create a complete video content package for the topic: " ++ q topic
    ++ L "

Your task is to generate a video data structure exactly like this format:
{
    0: " ++ scene_example "educational content about the topic" ", "
    ++ L "
    1: " ++ scene_example "second educational point" ","
    ++ L "
    ... and so on for " ++ PyStr.of_int scene_count ++ L " scenes
}

REQUIREMENTS:
1. Generate " ++ PyStr.of_int scene_count
    ++ L " educational content points about " ++ q topic ++ L "
2. For each content point, search for appropriate stock video
3. Generate audio files for each text segment
4. Create the final JSON data structure with numbered keys (0, 1, 2, etc.)
5. Language: " ++ language ++ L "

Use your available tools to:
- Generate educational content points
- Search for stock videos for each point
- Create audio files for narration
- Compile everything into the final data structure

Please complete this task autonomously and provide the final JSON result.".

(** The loop [async for event in runner.run_async(...)] with its [break]
    at the first final response: the run is not advanced past it. *)
Fixpoint final_response (s : estream) (st : State) : result str * State :=
  match s with
  | EEnd => (Return [], st)
  | ERaise e => (Raise e, st)
  | EEvent ev rest =>
      if is_final_response ev then (content_text ev, st)
      else let (s', st') := rest st in final_response s' st'
  end.

(** [run] is [runner.run_async] of the runner of the agent named: it is
    given user, session and prompt and the state, and returns the run from
    its first event on. *)
Definition create_video_content (w : World)
    (run : str -> str -> str -> str -> State -> estream * State)
    (topic language : str) (scene_count : Z) : M str :=
  call (create_session w APP_NAME USER_ID SESSION_ID) ;;;
  fun st =>
    let (s, st') :=
      run (L "video_creator_agent") USER_ID SESSION_ID
        (content_prompt topic language scene_count) st in
    final_response s st'.

(** The fields of a [GenerateVideoADK] object. *)
Record GenerateVideoADK := {
  topic : str;
  language : str;
  scene_count : Z
}.

(** [GenerateVideoADK(topic, language)] *)
Definition init (topic language : str) : GenerateVideoADK :=
  {| topic := topic; language := language; scene_count := 7 |}.

Definition output_file (self : GenerateVideoADK) : str :=
  L "video_content_" ++ PyStr.replace (L " ") (L "_") (topic self)
    ++ L ".json".

(** [GenerateVideoADK.start]: nothing here is inside a [try]. *)
Definition start (w : World)
    (run : str -> str -> str -> str -> State -> estream * State)
    (self : GenerateVideoADK) : M str :=
  result <- create_video_content w run (topic self) (language self)
              (scene_count self) ;;
  with_open_w w (output_file self)
    (fs w (Write (output_file self) result)) ;;;
  ret result.


End autonomous_agent_run.

(** ** Predicates and worlds for further properties *)

Module Props.

(** An upper-case ASCII letter. *)
Definition is_upper (c : ascii) : bool :=
  ((65 <=? code c) && (code c <=? 90))%N.

(** A printable ASCII character, from the space to the tilde. *)
Definition printable (c : ascii) : bool :=
  ((32 <=? code c) && (code c <=? 126))%N.

(** The tail that every file name of [generate_images] ends with. *)
Definition name_tail (i : nat) : str :=
  L "_" ++ PyStr.of_int (Z.of_nat i + 1) ++ L ".txt".

Definition no_space : exn :=
  Exn OSError (L "[Errno 28] No space left on device").

(** A full disk: directories and files can be created and a write is
    accepted into the buffer; the flush when the file is closed fails. *)
Definition full_disk : World :=
  {| import_genai := None;
     genai_configure := None;
     GenerativeModel := fun _ => None;
     generate_content := fun _ => Return [];
     hash := Demo.sum_hash;
     random_index := fun k => (5 * k + 1)%nat;
     json_loads := JsonRef.loads;
     fs_fault := fun _ c => match c with
                            | Close _ => Some no_space
                            | _ => None
                            end;
     py_str := Demo.py_repr;
     create_session := fun _ _ _ => None;
     run_async := fun _ _ _ _ => SEnd |}.

(** The calls by which one turn of the loop of [generate_images] writes
    the placeholder of [keyword] at [path]. *)
Definition placeholder_calls (path keyword : str) : list fs_call :=
  [OpenW path;
   Write path (L "Image prompt: "
                 ++ complete_script_img_agent.image_prompt keyword
                 ++ [autonomous_agent.nl]);
   Write path (L "Keyword: " ++ keyword ++ [autonomous_agent.nl]);
   Write path complete_script_img_agent.placeholder_note;
   Close path].


(** The calls of one turn of the loop of [generate_images] for a string
    keyword at index [i] of [n], when none of them raises. *)
Definition turn_calls (output_folder : Pathlib.Path) (n i : nat)
    (keyword : str) : list fs_call :=
  Print (complete_script_img_agent.turn_line i n keyword)
    :: placeholder_calls (Spec.descriptor output_folder i keyword) keyword
    ++ [Print (complete_script_img_agent.created_line keyword)].

(** The calls of the loop from index [i] on, string keyword by string
    keyword. *)
Fixpoint loop_calls (output_folder : Pathlib.Path) (n i : nat)
    (keywords : list json) : list fs_call :=
  match keywords with
  | [] => []
  | JStr keyword :: rest =>
      turn_calls output_folder n i keyword
        ++ loop_calls output_folder n (S i) rest
  | _ :: rest => loop_calls output_folder n (S i) rest
  end.


(** Whether none of [calls] raises when they are made in this order from
    the log [log] on; a printed line does not enter the log. *)
Fixpoint no_fault (w : World) (log : list fs_call) (calls : list fs_call)
  : bool :=
  match calls with
  | [] => true
  | c :: rest =>
      match fs_fault w log c with
      | Some _ => false
      | None =>
          no_fault w (match c with Print _ => log | _ => log ++ [c] end) rest
      end
  end.

(** A world in which nothing raises and no agent answers. *)
Definition quiet : World :=
  {| import_genai := None;
     genai_configure := None;
     GenerativeModel := fun _ => None;
     generate_content := fun _ => Return [];
     hash := Demo.sum_hash;
     random_index := fun k => (5 * k + 1)%nat;
     json_loads := JsonRef.loads;
     fs_fault := fun _ _ => None;
     py_str := Demo.py_repr;
     create_session := fun _ _ _ => None;
     run_async := fun _ _ _ _ => SEnd |}.


(** The quiet world with a console that writes ASCII only: a [print]
    of any other character raises. *)
Definition ascii_console : World :=
  {| import_genai := None;
     genai_configure := None;
     GenerativeModel := fun _ => None;
     generate_content := fun _ => Return [];
     hash := Demo.sum_hash;
     random_index := fun k => (5 * k + 1)%nat;
     json_loads := JsonRef.loads;
     fs_fault :=
       fun _ c =>
         match c with
         | Print text =>
             if forallb (fun ch => (code ch <? 128)%N) text then None
             else Some (Exn ValueError
                          (L "'ascii' codec can't encode character"))
         | _ => None
         end;
     py_str := Demo.py_repr;
     create_session := fun _ _ _ => None;
     run_async := fun _ _ _ _ => SEnd |}.


(** A run of the agent with tools: it calls [generate_audio_file] once,
    reports that, and then gives [answer] as its final response. *)
Definition one_tool_call (w : World) (answer : str)
    (agent user session prompt : str) (st : State)
  : autonomous_agent_run.estream * State :=
  let (out, st') :=
    autonomous_agent.generate_audio_file w (L "Meet the mitochondria.") 0 st in
  (autonomous_agent_run.EEvent
     {| is_final_response := false; content_text := out |}
     (fun st'' =>
        (autonomous_agent_run.EEvent
           {| is_final_response := true; content_text := Return answer |}
           (fun st''' => (autonomous_agent_run.EEnd, st''')),
         st'')),
   st').

(** A model answer of three lines. *)
Definition three_points : str := L "Mitochondria make ATP.
They have two membranes.
They carry their own DNA.".

(** A keywords answer with a string where the list should be. *)
Definition string_keywords : str :=
  Json.dumps (JDict [(L "keywords", JStr (L "ATP"))]).

(** A final answer of the agent with tools. *)
Definition answer : str :=
  Json.dumps
    (JDict [(L "0", JDict [(L "text", JStr (L "Meet the mitochondria."))])]).

(** The object that [main] creates. *)
Definition video : autonomous_agent_run.GenerateVideoADK :=
  autonomous_agent_run.init (L "powerhouse of the cell") (L "en").

End Props.

(** * Facts *)

(** ** Strings *)

Section PyStrFacts.

Lemma replace_char_map (a b : ascii) (s : str) :
  PyStr.replace [a] [b] s = map (fun c => if ascii_dec c a then b else c) s.
Proof.
  unfold PyStr.replace.
  induction s as [|c s IH]; simpl; [reflexivity|].
  destruct (ascii_dec a c) as [->|Hne].
  - destruct (ascii_dec c c); [|congruence]. simpl. now rewrite IH.
  - destruct (ascii_dec c a); [congruence|]. now rewrite IH.
Qed.

Lemma replace_char_remove (a : ascii) (s : str) :
  PyStr.replace [a] [] s
  = List.filter (fun c => negb (bool_decide (c = a))) s.
Proof.
  unfold PyStr.replace.
  induction s as [|c s IH]; simpl; [reflexivity|].
  destruct (ascii_dec a c) as [->|Hne].
  - rewrite bool_decide_eq_true_2 by reflexivity. simpl. exact IH.
  - rewrite bool_decide_eq_false_2 by congruence. simpl. now rewrite IH.
Qed.

(** A string without the first character of [old] has no occurrence of
    [old]; one occurrence after it is replaced, and nothing else. *)
Lemma replace_after_clean_prefix (o : ascii) (old new s : str) :
  Forall (fun c => c <> o) s ->
  PyStr.replace (o :: old) new (s ++ o :: old) = s ++ new.
Proof.
  unfold PyStr.replace.
  induction 1 as [|c s Hc Hs IH]; simpl.
  - destruct (ascii_dec o o); [|congruence].
    assert (Hsw : forall p, PyStr.startswith p p = true).
    { induction p as [|x p IHp]; simpl; [reflexivity|].
      destruct (ascii_dec x x); [exact IHp|congruence]. }
    rewrite Hsw.
    assert (Hskip : forall t, PyStr.replace_from (o :: old) new t (length t) = []).
    { induction t as [|x t IHt]; simpl; [reflexivity|exact IHt]. }
    rewrite Hskip. now rewrite app_nil_r.
  - destruct (ascii_dec o c); [congruence|]. now rewrite IH.
Qed.

(** [str(n)] is made of digits and a possible minus sign. *)
Lemma of_int_Forall (P : ascii -> Prop) :
  (forall c, In c (L "-0123456789") -> P c) ->
  forall n, Forall P (PyStr.of_int n).
Proof.
  intros HP n.
  assert (Hu : forall d, Forall P (L (NilEmpty.string_of_uint d))).
  { induction d; simpl; constructor; try assumption;
      apply HP; simpl; tauto. }
  assert (Hz : forall d, Forall P (L (NilZero.string_of_uint d))).
  { intros d. destruct d; try apply Hu.
    simpl. constructor; [apply HP; simpl; tauto|constructor]. }
  unfold PyStr.of_int, NilZero.string_of_int.
  destruct (Z.to_int n); [apply Hz|].
  simpl. constructor; [apply HP; simpl; tauto|apply Hz].
Qed.

Lemma of_int_no_dot (n : Z) :
  Forall (fun c => c <> "."%char) (PyStr.of_int n).
Proof.
  apply of_int_Forall. intros c Hc. simpl in Hc.
  intuition (subst; discriminate).
Qed.


Lemma In_firstn_inv {A} (x : A) (n : nat) (l : list A) :
  In x (firstn n l) -> In x l.
Proof.
  intros H. rewrite <- (firstn_skipn n l). apply in_or_app. now left.
Qed.

Lemma startswith_app (p s : str) :
  PyStr.startswith p s = true -> exists b, s = p ++ b.
Proof.
  revert s. induction p as [|a p IH]; intros s H.
  - now exists s.
  - destruct s as [|c s]; simpl in H; [discriminate|].
    destruct (ascii_dec a c) as [->|]; [|discriminate].
    destruct (IH s H) as [b ->]. now exists b.
Qed.

Lemma contains_app (sub s : str) :
  PyStr.contains sub s = true -> exists a b, s = a ++ sub ++ b.
Proof.
  induction s as [|c s IH]; simpl; intros H.
  - rewrite orb_false_r in H. apply startswith_app in H as [b Hb].
    exists [], b. exact Hb.
  - apply orb_true_iff in H as [H|H].
    + apply startswith_app in H as [b Hb]. exists [], b. exact Hb.
    + destruct (IH H) as (a & b & ->). now exists (c :: a), b.
Qed.

Lemma contains_firstn (sub s : str) (n : nat) :
  PyStr.contains sub (firstn n s) = true -> exists a b, s = a ++ sub ++ b.
Proof.
  intros H. apply contains_app in H as (a & b & Hab).
  exists a, (b ++ skipn n s).
  rewrite <- (firstn_skipn n s) at 1. rewrite Hab.
  now rewrite <- !app_assoc.
Qed.

Lemma lstrip_head (s r : str) (c : ascii) :
  PyStr.lstrip s = c :: r -> PyStr.isspace c = false.
Proof.
  induction s as [|x s IH]; simpl; [discriminate|].
  destruct (PyStr.isspace x) eqn:Hx; [exact IH|].
  intros [= <- _]. exact Hx.
Qed.

Lemma lstrip_nil (s : str) :
  PyStr.lstrip s = [] -> Forall (fun c => PyStr.isspace c = true) s.
Proof.
  induction s as [|x s IH]; simpl; [constructor|].
  destruct (PyStr.isspace x) eqn:Hx; [|discriminate].
  intros H. constructor; auto.
Qed.

Lemma lstrip_suffix (s : str) : exists a, s = a ++ PyStr.lstrip s.
Proof.
  induction s as [|x s [a IH]]; simpl; [now exists []|].
  destruct (PyStr.isspace x); [|now exists []].
  exists (x :: a). simpl. now f_equal.
Qed.

(** A string with a character that is not a blank does not strip to the
    empty string. *)
Lemma strip_nonempty (s : str) (c : ascii) :
  In c s -> PyStr.isspace c = false -> PyStr.strip s <> [].
Proof.
  intros Hin Hc Hnil. unfold PyStr.strip, PyStr.rstrip in Hnil.
  apply (f_equal (@rev ascii)) in Hnil. rewrite rev_involutive in Hnil.
  simpl in Hnil. apply lstrip_nil in Hnil.
  assert (Hl : Forall (fun c => PyStr.isspace c = true) (PyStr.lstrip s)).
  { apply List.Forall_forall. intros x Hx.
    apply (proj1 (List.Forall_forall _ _) Hnil). now apply in_rev in Hx. }
  destruct (PyStr.lstrip s) as [|y r] eqn:Hls.
  - apply lstrip_nil in Hls.
    pose proof (proj1 (List.Forall_forall _ _) Hls c Hin). congruence.
  - apply lstrip_head in Hls. inversion Hl; subst. congruence.
Qed.

(** The last character of a stripped string is not a blank. *)
Lemma strip_last (s a : str) (c : ascii) :
  PyStr.strip s = a ++ [c] -> PyStr.isspace c = false.
Proof.
  unfold PyStr.strip, PyStr.rstrip. intros H.
  apply (f_equal (@rev ascii)) in H.
  rewrite rev_involutive, rev_app_distr in H. simpl in H.
  eapply lstrip_head, H.
Qed.

Lemma split1_after_first (sep : ascii) (s : str) :
  In sep s -> exists w, PyStr.split1 sep s = [w; Spec.after_first sep s].
Proof.
  induction s as [|c s IH]; simpl; [tauto|].
  intros Hin. destruct (ascii_dec c sep) as [->|Hne].
  - now exists [].
  - destruct Hin as [Heq|Hin]; [congruence|].
    destruct (IH Hin) as [w ->]. now exists (c :: w).
Qed.

Lemma last_item_after_first (sep : ascii) (s : str) :
  In sep s ->
  PyStr.last_item (PyStr.split1 sep s) = Spec.after_first sep s.
Proof.
  intros Hin. destruct (split1_after_first sep s Hin) as [w ->].
  reflexivity.
Qed.

(** What follows the first separator ends like the whole string. *)
Lemma after_first_suffix (sep : ascii) (a t : str) :
  exists u, Spec.after_first sep (a ++ sep :: t) = u ++ t.
Proof.
  induction a as [|c a [u IH]]; simpl.
  - destruct (ascii_dec sep sep); [|congruence]. now exists [].
  - destruct (ascii_dec c sep).
    + exists (a ++ [sep]). now rewrite <- app_assoc.
    + now exists u.
Qed.

(** A stripped line with a period and a space keeps something after its
    first period. *)
Lemma numbered_text_nonempty (raw a b : str) :
  PyStr.strip raw = a ++ L ". " ++ b ->
  PyStr.strip (Spec.after_first "."%char (PyStr.strip raw)) <> [].
Proof.
  intros Hl. rewrite Hl.
  change (a ++ L ". " ++ b) with (a ++ "."%char :: " "%char :: b).
  destruct (after_first_suffix "."%char a (" "%char :: b)) as [u ->].
  destruct (@exists_last _ (" "%char :: b)) as (b' & z & Hz); [discriminate|].
  assert (Hzs : PyStr.isspace z = false).
  { apply (strip_last raw (a ++ "."%char :: b') z).
    rewrite Hl. change (L ". " ++ b) with ("."%char :: " "%char :: b).
    rewrite Hz. now rewrite <- app_assoc. }
  apply (strip_nonempty _ z); [|exact Hzs].
  apply in_or_app. right. rewrite Hz. apply in_or_app. right. now left.
Qed.

(** [str(n)] determines [n]. *)
Lemma of_int_inj (a b : Z) : PyStr.of_int a = PyStr.of_int b -> a = b.
Proof.
  unfold PyStr.of_int, L. intros H.
  apply (f_equal string_of_list_ascii) in H.
  rewrite !string_of_list_ascii_of_string in H.
  apply (f_equal NilZero.int_of_string) in H.
  assert (Hn : forall z, Z.to_int z <> Decimal.Pos Decimal.Nil
                         /\ Z.to_int z <> Decimal.Neg Decimal.Nil).
  { intros [|p|p]; cbn; split; try discriminate;
      intros [= Hp]; now apply Stdlib.Numbers.DecimalPos.Unsigned.to_uint_nonnil in Hp. }
  rewrite !NilZero.isi in H by apply Hn.
  injection H as H. now apply Stdlib.Numbers.DecimalZ.to_int_inj.
Qed.

Lemma clean_prefix_unique {A} (s : A) (x x' y y' : list A) :
  x ++ s :: y = x' ++ s :: y' -> ~ In s x -> ~ In s x' -> x = x'.
Proof.
  revert x'. induction x as [|a x IH]; intros [|a' x'] H Hx Hx';
    cbn [app In] in *.
  - reflexivity.
  - injection H as -> _. tauto.
  - injection H as -> _. tauto.
  - injection H as -> H. f_equal. apply IH with (1 := H); tauto.
Qed.

End PyStrFacts.

(** ** Process start-up *)

Section StartupFacts.

Lemma getenv_load_dotenv (name : str) (dotenv os_environ : gmap str str) :
  Startup.getenv name (Startup.load_dotenv dotenv os_environ)
  = match os_environ !! name with
    | Some v => Some v
    | None => dotenv !! name
    end.
Proof.
  unfold Startup.getenv, Startup.load_dotenv.
  destruct (os_environ !! name) as [v|] eqn:He.
  - now apply lookup_union_Some_l.
  - now rewrite lookup_union_r.
Qed.

Lemma run_outcome (body : list Startup.step)
    (dotenv os_environ : gmap str str) :
  Startup.run body dotenv os_environ
  = Spec.startup_outcome body dotenv os_environ.
Proof.
  unfold Startup.run, Spec.startup_outcome, Spec.api_key.
  rewrite getenv_load_dotenv.
  destruct (os_environ !! L "GOOGLE_API_KEY") as [[|c v]|];
    [reflexivity|reflexivity|].
  now destruct (dotenv !! L "GOOGLE_API_KEY") as [[|c v]|].
Qed.

(** C8, as the code has it.  In each of the three modules the start-up
    fails with the assertion error, before any agent is created, when
    [GOOGLE_API_KEY] is neither in the environment nor in the [.env]
    file, and also when the value found is the empty string; with a
    non-empty value the start-up goes on to the module's steps. *)
Theorem startup_requires_nonempty_key (dotenv os_environ : gmap str str) :
  autonomous_agent.startup dotenv os_environ
  = Spec.startup_outcome [Startup.CreateAgent (L "video_creator_agent")]
      dotenv os_environ
  /\ script_agent.startup dotenv os_environ
     = Spec.startup_outcome [Startup.CreateAgent (L "gemini_agent")]
         dotenv os_environ
  /\ complete_script_img_agent.startup dotenv os_environ
     = Spec.startup_outcome
         [Startup.ConfigureGenai;
          Startup.CreateAgent (L "script_agent");
          Startup.CreateAgent (L "keyword_agent")]
         dotenv os_environ.
Proof. repeat split; apply run_outcome. Qed.

End StartupFacts.

(** ** The monad *)

Section MonadFacts.

Lemma run_inv {A} (a b : A) (s t : State) :
  (Return a, s) = (Return b, t) -> a = b /\ s = t.
Proof. intros H. injection H. auto. Qed.

Lemma return_inv {A} (a b : A) : Return a = Return b -> a = b.
Proof. intros H. injection H. auto. Qed.

End MonadFacts.

(** ** The tools of src/autonomous_agent.py *)

Section ToolFacts.

Import autonomous_agent.

Lemma video_url_stem (video_id : Z) (clean_query ext : str) :
  video_url video_id clean_query ext
  = (L "https://media.gettyimages.com/id/" ++ PyStr.of_int video_id
       ++ L "/video/" ++ clean_query) ++ ext.
Proof. unfold video_url. now rewrite <- !app_assoc. Qed.

Lemma clean_query_slug (query : str) :
  PyStr.replace (L ".") [] (PyStr.replace (L " ") (L "-") (PyStr.lower query))
  = Spec.slug query.
Proof.
  unfold Spec.slug.
  change (L ".") with ["."%char]. change (L " ") with [" "%char].
  change (L "-") with ["-"%char].
  now rewrite replace_char_map, replace_char_remove.
Qed.

(** In a serialized string the digits of a number stand as they are. *)
Lemma escape_of_int (n : Z) :
  flat_map Json.escape_char (PyStr.of_int n) = PyStr.of_int n.
Proof.
  assert (H : Forall (fun c => Json.escape_char c = [c]) (PyStr.of_int n)).
  { apply of_int_Forall. intros c Hc. simpl in Hc.
    intuition (subst; reflexivity). }
  induction H as [|c s Hc _ IH]; cbn [flat_map]; [reflexivity|].
  now rewrite Hc, IH.
Qed.

Lemma of_int_no_slash (n : Z) : ~ In "/"%char (PyStr.of_int n).
Proof.
  assert (H : Forall (fun c => c <> "/"%char) (PyStr.of_int n)).
  { apply of_int_Forall. intros c Hc. simpl in Hc.
    intuition (subst; discriminate). }
  intros Hin. exact (proj1 (List.Forall_forall _ _) H _ Hin eq_refl).
Qed.

(** The result of [search_stock_video] begins with a fixed text that is
    followed by the id and a slash. *)
Lemma stock_result_id (video_id : Z) (clean_query : str) :
  exists tail,
    Json.dumps
      (JDict [(L "video", JStr (video_url video_id clean_query (L ".mp4")));
              (L "poster", JStr (video_url video_id clean_query (L ".jpg")))])
    = L "{" ++ q (L "video") ++ L ": " ++ dq
        :: L "https://media.gettyimages.com/id/"
        ++ PyStr.of_int video_id ++ "/"%char :: tail.
Proof.
  unfold video_url. cbn [Json.dumps map fst snd PyStr.join].
  unfold Json.dumps_str at 2. rewrite !flat_map_app, escape_of_int.
  change (flat_map Json.escape_char (L "https://media.gettyimages.com/id/"))
    with (L "https://media.gettyimages.com/id/").
  change (flat_map Json.escape_char (L "/video/"))
    with ("/"%char :: L "video/").
  change (Json.dumps_str (L "video")) with (q (L "video")).
  unfold q. eexists.
  repeat (rewrite <- app_assoc || rewrite <- app_comm_cons).
  reflexivity.
Qed.

(** C7, as the code has it.  [search_stock_video] returns the object
    with the keys [video] and [poster] whose URLs share one stem, ending
    in the id [abs(hash(query)) mod 10000000], which lies in
    [0, 10000000), and in the slug of the query (lowercased, spaces
    turned into hyphens, periods removed), and differ in the extension
    [.mp4] or [.jpg] only; it leaves the state alone.  In one process
    (one [hash]) it returns for a query the same result whatever calls
    came before; a call in another process [w'] returns that result
    exactly when the two ids agree. *)
Theorem search_stock_video_deterministic_urls (w w' : World) (query : str)
    (st st' : State) :
  let video_id := fun w : World => Z.abs (hash w query) mod 10000000 in
  let stem := fun w : World =>
                L "https://media.gettyimages.com/id/"
                  ++ PyStr.of_int (video_id w)
                  ++ L "/video/" ++ Spec.slug query in
  search_stock_video w query st
  = (Return (Json.dumps (JDict [(L "video", JStr (stem w ++ L ".mp4"));
                                (L "poster", JStr (stem w ++ L ".jpg"))])), st)
  /\ 0 <= video_id w < 10000000
  /\ fst (search_stock_video w query st') = fst (search_stock_video w query st)
  /\ (fst (search_stock_video w' query st') = fst (search_stock_video w query st)
      <-> video_id w' = video_id w).
Proof.
  intros video_id stem. split; [|split; [|split]].
  - unfold search_stock_video, try_except, ret.
    rewrite clean_query_slug, !video_url_stem. reflexivity.
  - apply Z.mod_pos_bound. lia.
  - reflexivity.
  - unfold search_stock_video, try_except, ret. cbn [fst].
    fold (video_id w) (video_id w'). split.
    + intros H. apply return_inv in H.
      destruct (stock_result_id (video_id w')
                  (PyStr.replace (L ".") []
                     (PyStr.replace (L " ") (L "-") (PyStr.lower query))))
        as [tail' Ht'].
      destruct (stock_result_id (video_id w)
                  (PyStr.replace (L ".") []
                     (PyStr.replace (L " ") (L "-") (PyStr.lower query))))
        as [tail Ht].
      rewrite Ht, Ht' in H.
      apply app_inv_head in H. apply app_inv_head in H.
      apply app_inv_head in H. injection H as H.
      apply clean_prefix_unique in H; try apply of_int_no_slash.
      now apply of_int_inj.
    + intros ->. reflexivity.
Qed.

Lemma alphabet_no_dot : Forall (fun c => c <> "."%char) alphabet.
Proof. repeat constructor; discriminate. Qed.

Lemma random_choice_spec (w : World) (seq : str) (st : State) :
  seq <> [] ->
  exists c,
    random_choice w seq st
    = (Return c, {| fs_log := fs_log st; draws := S (draws st) |})
    /\ In c seq.
Proof.
  intros Hne. eexists. split; [reflexivity|].
  apply nth_In. apply Nat.mod_upper_bound.
  destruct seq; [congruence|discriminate].
Qed.

(** The random part of the file name: [n] characters of the alphabet,
    at the price of [n] draws. *)
Lemma random_chars_spec (w : World) (n : nat) (st : State) :
  exists cs,
    random_chars w n st
    = (Return cs, {| fs_log := fs_log st; draws := draws st + n |})
    /\ length cs = n
    /\ Forall (fun c => In c alphabet) cs.
Proof.
  revert st. induction n as [|n IH]; intros st.
  - exists []. cbn [random_chars]. unfold ret. rewrite Nat.add_0_r.
    destruct st; auto.
  - cbn [random_chars]. unfold bind.
    destruct (random_choice_spec w alphabet st) as (c & Hc & Hin);
      [discriminate|].
    rewrite Hc.
    destruct (IH {| fs_log := fs_log st; draws := S (draws st) |})
      as (cs & Hcs & Hlen & Hall).
    rewrite Hcs. cbn [fs_log draws]. unfold ret.
    exists (c :: cs). split; [|split].
    + f_equal. f_equal. lia.
    + cbn [length]. now rewrite Hlen.
    + constructor; assumption.
Qed.

(** The placeholder's path: the only [.mp3] in the file name is its
    suffix. *)
Lemma audio_placeholder_path (index : Z) (cs : str) :
  Forall (fun c => In c alphabet) cs ->
  PyStr.replace (L ".mp3") (L ".txt") (audio_filename index cs)
  = (L "static/audio/" ++ PyStr.of_int index ++ L "_" ++ cs) ++ L ".txt".
Proof.
  intros Hcs. unfold audio_filename.
  replace (L "static/audio/" ++ PyStr.of_int index ++ L "_" ++ cs ++ L ".mp3")
    with ((L "static/audio/" ++ PyStr.of_int index ++ L "_" ++ cs)
            ++ "."%char :: L "mp3")
    by (now rewrite <- !app_assoc).
  apply (replace_after_clean_prefix "."%char (L "mp3") (L ".txt")).
  rewrite !Forall_app. repeat split.
  - repeat constructor; discriminate.
  - apply of_int_no_dot.
  - repeat constructor; discriminate.
  - eapply Forall_impl; [exact Hcs|].
    intros c Hc. exact (proj1 (List.Forall_forall _ _) alphabet_no_dot c Hc).
Qed.


(** What a run of the body of [generate_audio_file] that does not raise
    has done. *)
Lemma audio_body_returns (w : World) (text : str) (index : Z)
    (st st' : State) (out : str) :
  generate_audio_file_body w text index st = (Return out, st') ->
  exists random_chars,
    length random_chars = 4%nat
    /\ Forall (fun c => In c alphabet) random_chars
    /\ let stem := L "static/audio/" ++ PyStr.of_int index ++ L "_"
                     ++ random_chars in
       generate_audio_file w text index st
       = (Return (Json.dumps (JDict [(L "audio_file", JStr (stem ++ L ".mp3"));
                                     (L "text", JStr text)])), st')
       /\ exists new,
            fs_log st' = fs_log st ++ new
            /\ opened new = [stem ++ L ".txt"]
            /\ written (stem ++ L ".txt") new = audio_line1 text ++ audio_line2
            /\ ~ In (stem ++ L ".mp3") (opened new).
Proof.
  intros H.
  unfold generate_audio_file. unfold try_except. rewrite H.
  unfold generate_audio_file_body in H.
  unfold bind at 1 in H. unfold fs at 1 in H.
  destruct (fs_fault w (fs_log st) (Mkdir (L "static/audio") true true))
    eqn:Emk; [discriminate|].
  unfold bind at 1 in H.
  destruct (random_chars_spec w 4
              {| fs_log := fs_log st ++ [Mkdir (L "static/audio") true true];
                 draws := draws st |}) as (cs & Hcs & Hlen & Hall).
  rewrite Hcs in H. cbn [fs_log draws] in H.
  rewrite (audio_placeholder_path index cs Hall) in H.
  set (stem := L "static/audio/" ++ PyStr.of_int index ++ L "_" ++ cs) in *.
  exists cs. split; [exact Hlen|]. split; [exact Hall|].
  repeat (unfold bind, with_open_w, fs, ret in H; cbv beta in H).
  cbn [fs_log draws] in H.
  repeat match type of H with
         | context [fs_fault w ?l ?c] =>
             destruct (fs_fault w l c) eqn:?;
             cbv beta iota in H; cbn [fs_log draws] in H;
             try discriminate
         end.
  apply run_inv in H. destruct H as [Hout Hst]. subst out st'. cbn [fs_log].
  split.
  - f_equal. f_equal. unfold audio_filename. fold stem.
    unfold stem. now rewrite <- !app_assoc.
  - eexists. split; [rewrite <- !app_assoc; reflexivity|].
    cbn [opened written flat_map app].
    unfold PyStr.eqb. rewrite !bool_decide_eq_true_2 by reflexivity.
    rewrite !app_nil_r.
    split; [reflexivity|]. split; [reflexivity|].
    intros [Heq|[]]. apply app_inv_head in Heq. discriminate.
Qed.

(** C10.  When the body of [generate_audio_file] does not raise, the tool
    returns the object whose [text] is the input text and whose
    [audio_file] is [static/audio/{index}_CCCC.mp3], with [CCCC] four
    characters of the upper-case letters and digits; the one file it
    opens for writing is that path with [.txt] in place of [.mp3], it
    receives the two placeholder lines, and the [.mp3] path itself is
    not opened. *)
Theorem generate_audio_file_success (w : World) (text : str) (index : Z)
    (st st' : State) (out : str) :
  generate_audio_file_body w text index st = (Return out, st') ->
  exists random_chars,
    length random_chars = 4%nat
    /\ Forall (fun c => In c alphabet) random_chars
    /\ let stem := L "static/audio/" ++ PyStr.of_int index ++ L "_"
                     ++ random_chars in
       generate_audio_file w text index st
       = (Return (Json.dumps (JDict [(L "audio_file", JStr (stem ++ L ".mp3"));
                                     (L "text", JStr text)])), st')
       /\ exists new,
            fs_log st' = fs_log st ++ new
            /\ opened new = [stem ++ L ".txt"]
            /\ written (stem ++ L ".txt") new = audio_line1 text ++ audio_line2
            /\ ~ In (stem ++ L ".mp3") (opened new).
Proof. exact (audio_body_returns w text index st st' out). Qed.


Lemma truthy_nonempty (s : str) : PyStr.truthy s = true <-> s <> [].
Proof. destruct s; simpl; split; congruence. Qed.

(** One turn of the cleaning loop appends the line's content point, if
    the line is kept; the inner test [if line] never discards one. *)
Lemma clean_step_spec (acc : list str) (raw : str) :
  clean_step acc raw
  = acc ++ (if Spec.kept (PyStr.strip raw)
            then [Spec.strip_numbering (PyStr.strip raw)] else []).
Proof.
  unfold clean_step, Spec.kept, Spec.mentions_phrase, phrases.
  destruct (PyStr.truthy (PyStr.strip raw) && _) eqn:Hk;
    [|now rewrite app_nil_r].
  unfold Spec.strip_numbering, Spec.numbered.
  destruct (PyStr.contains (L ". ") (firstn 5 (PyStr.strip raw))) eqn:Hn.
  - destruct (contains_firstn _ _ _ Hn) as (a & b & Hab).
    rewrite last_item_after_first
      by (rewrite Hab; apply in_or_app; right; now left).
    pose proof (numbered_text_nonempty raw a b Hab) as Hne.
    apply truthy_nonempty in Hne. now rewrite Hne.
  - apply andb_true_iff in Hk as [Ht _]. now rewrite Ht.
Qed.

Lemma clean_from (lines acc : list str) :
  fold_left clean_step lines acc
  = acc ++ map Spec.strip_numbering
             (List.filter Spec.kept (map PyStr.strip lines)).
Proof.
  revert acc. induction lines as [|raw lines IH]; intros acc; simpl.
  - now rewrite app_nil_r.
  - rewrite IH, clean_step_spec.
    destruct (Spec.kept (PyStr.strip raw)); simpl.
    + now rewrite <- app_assoc.
    + now rewrite app_nil_r.
Qed.

(** The loop of [generate_video_content] computes the content points of
    the specification. *)
Lemma clean_spec (lines : list str) :
  clean lines
  = map Spec.strip_numbering (List.filter Spec.kept (map PyStr.strip lines)).
Proof. unfold clean. now rewrite clean_from. Qed.

Lemma strip_numbering_nonempty (raw : str) :
  Spec.kept (PyStr.strip raw) = true ->
  Spec.strip_numbering (PyStr.strip raw) <> [].
Proof.
  intros Hk. unfold Spec.strip_numbering, Spec.numbered.
  destruct (PyStr.contains (L ". ") (firstn 5 (PyStr.strip raw))) eqn:Hn.
  - destruct (contains_firstn _ _ _ Hn) as (a & b & Hab).
    exact (numbered_text_nonempty raw a b Hab).
  - apply andb_true_iff in Hk as [Ht _]. now apply truthy_nonempty.
Qed.

(** C6, for a count that is not negative.  When the import, the
    configuration and the model constructor do not raise and the model
    answers [text], [generate_video_content] returns the object whose
    [content_points] are the content points of the specification: at most
    [scene_count] of them, none empty, each coming from a line of the
    answer that, once stripped, is not blank and mentions none of the
    three phrases in any case, with the numbering removed when the first
    five characters of the stripped line contain a period followed by a
    space. *)
Theorem generate_video_content_points (w : World) (topic text : str)
    (scene_count : Z) (st : State) :
  import_genai w = None ->
  genai_configure w = None ->
  GenerativeModel w (L "gemini-2.0-flash") = None ->
  generate_content w (video_prompt topic scene_count) = Return text ->
  0 <= scene_count ->
  let points := Spec.content_points text scene_count in
  generate_video_content w topic scene_count st
  = (Return (Json.dumps (JDict [(L "content_points",
                                 JList (map JStr points))])), st)
  /\ Z.of_nat (length points) <= scene_count
  /\ Forall (fun p => p <> []) points
  /\ Forall (fun p => exists raw,
                 In raw (PyStr.split nl text)
                 /\ PyStr.strip raw <> []
                 /\ Spec.mentions_phrase (PyStr.strip raw) = false
                 /\ p = (if Spec.numbered (PyStr.strip raw)
                         then PyStr.strip
                                (Spec.after_first "."%char (PyStr.strip raw))
                         else PyStr.strip raw)) points.
Proof.
  intros Himp Hcfg Hmodel Htext Hpos points.
  assert (Hin : forall p, In p points ->
            exists raw, In raw (PyStr.split nl text)
                        /\ Spec.kept (PyStr.strip raw) = true
                        /\ p = Spec.strip_numbering (PyStr.strip raw)).
  { intros p Hp. unfold points, Spec.content_points in Hp.
    apply In_firstn_inv in Hp. apply in_map_iff in Hp as (l & <- & Hl).
    apply filter_In in Hl as [Hl Hk].
    apply in_map_iff in Hl as (raw & <- & Hraw). eauto. }
  split; [|split; [|split]].
  - unfold generate_video_content, generate_video_content_body.
    rewrite Himp, Hcfg, Hmodel, Htext.
    unfold bind, call, try_except, lift, ret. cbv beta iota.
    rewrite clean_spec. unfold PyStr.slice_to.
    destruct (0 <=? scene_count) eqn:Hle; [reflexivity|lia].
  - unfold points, Spec.content_points.
    rewrite length_firstn. lia.
  - apply List.Forall_forall. intros p Hp.
    destruct (Hin p Hp) as (raw & _ & Hk & ->).
    now apply strip_numbering_nonempty.
  - apply List.Forall_forall. intros p Hp.
    destruct (Hin p Hp) as (raw & Hraw & Hk & ->).
    exists raw. unfold Spec.kept in Hk.
    apply andb_true_iff in Hk as [Ht Hm].
    repeat split; try assumption.
    + now apply truthy_nonempty.
    + now apply negb_true_iff.
Qed.


(** *** The tool contract: a serialized object with the success fields
    or with [error] *)

Lemma dict_get_here (k : str) (v : json) (kvs : list (str * json)) :
  dict_get k ((k, v) :: kvs) = Some v.
Proof.
  cbn [dict_get]. unfold PyStr.eqb.
  now rewrite bool_decide_eq_true_2.
Qed.

Lemma error_json_tool_result (fields : list str) (e : exn) :
  Spec.tool_result fields (error_json e).
Proof.
  eexists. split; [reflexivity|]. left. rewrite dict_get_here. eauto.
Qed.

Lemma search_stock_video_tool_result (w : World) (query : str) (st : State) :
  exists out,
    search_stock_video w query st = (Return out, st)
    /\ Spec.tool_result [L "video"; L "poster"] out.
Proof.
  eexists. split; [reflexivity|].
  eexists. split; [reflexivity|]. right.
  repeat constructor; [rewrite dict_get_here; eauto|].
  cbn [dict_get]. unfold PyStr.eqb.
  rewrite bool_decide_eq_false_2 by discriminate.
  rewrite bool_decide_eq_true_2 by reflexivity. eauto.
Qed.

Lemma generate_audio_file_tool_result (w : World) (text : str) (index : Z)
    (st : State) :
  exists out st',
    generate_audio_file w text index st = (Return out, st')
    /\ Spec.tool_result [L "audio_file"; L "text"] out.
Proof.
  destruct (generate_audio_file_body w text index st) as [[out|e] st'] eqn:Hb.
  - destruct (audio_body_returns w text index st st' out Hb)
      as (cs & _ & _ & Hres & _).
    eexists _, st'. split; [exact Hres|].
    eexists. split; [reflexivity|]. right.
    repeat constructor; [rewrite dict_get_here; eauto|].
    cbn [dict_get]. unfold PyStr.eqb.
    rewrite bool_decide_eq_false_2 by discriminate.
    rewrite bool_decide_eq_true_2 by reflexivity. eauto.
  - exists (error_json e), st'. split.
    + unfold generate_audio_file, try_except. now rewrite Hb.
    + apply error_json_tool_result.
Qed.

(** Past its first two statements, [generate_video_content] keeps the
    contract as well. *)
Lemma generate_video_content_guarded (w : World) (topic : str)
    (scene_count : Z) (st : State) :
  import_genai w = None ->
  genai_configure w = None ->
  exists out,
    generate_video_content w topic scene_count st = (Return out, st)
    /\ Spec.tool_result [L "content_points"] out.
Proof.
  intros Himp Hcfg.
  unfold generate_video_content, generate_video_content_body.
  rewrite Himp, Hcfg. unfold bind, call, try_except, lift, ret, raise.
  cbv beta iota.
  destruct (GenerativeModel w (L "gemini-2.0-flash")) as [e|].
  - exists (error_json e). split; [reflexivity|].
    apply error_json_tool_result.
  - destruct (generate_content w (video_prompt topic scene_count)) as [text|e].
    + eexists. split; [reflexivity|].
      eexists. split; [reflexivity|]. right.
      repeat constructor. rewrite dict_get_here. eauto.
    + exists (error_json e). split; [reflexivity|].
      apply error_json_tool_result.
Qed.

(** The import and the configuration are not inside the [try]: what
    they raise leaves the tool. *)
Lemma generate_video_content_unguarded (w : World) (topic : str)
    (scene_count : Z) (st : State) (e : exn) :
  import_genai w = Some e
  \/ (import_genai w = None /\ genai_configure w = Some e) ->
  generate_video_content w topic scene_count st = (Raise e, st).
Proof.
  intros [Himp|[Himp Hcfg]]; unfold generate_video_content, bind, call, raise, ret;
    rewrite Himp; [reflexivity|]. now rewrite Hcfg.
Qed.

End ToolFacts.

(** ** The pipeline of src/complete_script_img_agent.py *)

Section PipelineFacts.

Import complete_script_img_agent.


Variable w : World.







(** When none of its calls raises, one turn of the loop writes the
    placeholder of a string keyword and adds its descriptor. *)
Lemma image_step_ok (output_folder : Pathlib.Path) (n : nat)
    (acc : list str) (i : nat) (s : str) (st : State)
    (rest : list fs_call) :
  Props.no_fault w (fs_log st) (Props.turn_calls output_folder n i s ++ rest)
  = true ->
  image_step w output_folder n acc i (JStr s) st
  = (Return (acc ++ [Spec.descriptor output_folder i s]),
     {| fs_log := fs_log st
                    ++ Props.placeholder_calls
                         (Spec.descriptor output_folder i s) s;
        draws := draws st |})
  /\ Props.no_fault w
       (fs_log st
          ++ Props.placeholder_calls (Spec.descriptor output_folder i s) s)
       rest = true.
Proof.
  unfold Props.turn_calls, Props.placeholder_calls.
  set (p := Spec.descriptor output_folder i s).
  cbn [app Props.no_fault]. intros H.
  repeat match type of H with
         | context [fs_fault w ?l ?c] =>
             destruct (fs_fault w l c) eqn:?; [discriminate H|]
         end.
  split.
  - unfold image_step, image_body.
    fold (Spec.descriptor output_folder i s). fold p. cbn [fmt].
    repeat (unfold try_except, bind, with_open_w, fs, print, ret; cbv beta).
    repeat match goal with
           | E : fs_fault w _ _ = None |- _ =>
               rewrite E; cbv beta iota; cbn [fs_log draws]
           end.
    rewrite <- !app_assoc. reflexivity.
  - rewrite <- !app_assoc in H. exact H.
Qed.

Lemma image_loop_ok (output_folder : Pathlib.Path) (n : nat)
    (keywords : list json) (i : nat) (acc : list str) (st : State) :
  Forall Spec.is_str keywords ->
  Props.no_fault w (fs_log st) (Props.loop_calls output_folder n i keywords)
  = true ->
  exists st',
    image_loop w output_folder n i keywords acc st
    = (Return (acc ++ Spec.descriptors output_folder i keywords), st').
Proof.
  intros Hall. revert i acc st.
  induction Hall as [|keyword rest [s ->] _ IH]; intros i acc st Hok.
  - exists st. cbn [image_loop Spec.descriptors]. unfold ret.
    now rewrite app_nil_r.
  - cbn [Props.loop_calls] in Hok.
    destruct (image_step_ok output_folder n acc i s st _ Hok) as [Hs Hrest].
    cbn [image_loop Spec.descriptors]. unfold bind. rewrite Hs.
    destruct (IH (S i) (acc ++ [Spec.descriptor output_folder i s])
                {| fs_log := fs_log st
                               ++ Props.placeholder_calls
                                    (Spec.descriptor output_folder i s) s;
                   draws := draws st |} Hrest)
      as [st' ->].
    exists st'. now rewrite <- app_assoc.
Qed.

(** In a world where no call raises, no call of a run raises. *)
Lemma no_fault_all (calls log : list fs_call) :
  (forall log c, fs_fault w log c = None) ->
  Props.no_fault w log calls = true.
Proof.
  intros Hok. revert log.
  induction calls as [|c calls IH]; intros log; [reflexivity|].
  cbn [Props.no_fault]. rewrite Hok. apply IH.
Qed.

Lemma image_loop_no_fault (output_folder : Pathlib.Path) (n : nat)
    (keywords : list json) (i : nat) (acc : list str) (st : State) :
  (forall log c, fs_fault w log c = None) ->
  Forall Spec.is_str keywords ->
  exists st',
    image_loop w output_folder n i keywords acc st
    = (Return (acc ++ Spec.descriptors output_folder i keywords), st').
Proof.
  intros Hok Hall. apply image_loop_ok; [exact Hall|].
  now apply no_fault_all.
Qed.












(** The loop over the events stops at the first final response and
    yields its text. *)
Lemma final_text_first (pre : list Event) (answer : result str)
    (rest : stream) :
  Forall (fun ev => is_final_response ev = false) pre ->
  final_text
    (fold_right SEvent
       (SEvent {| is_final_response := true; content_text := answer |} rest)
       pre)
  = answer.
Proof.
  induction 1 as [|ev pre Hev _ IH]; cbn [fold_right final_text].
  - reflexivity.
  - now rewrite Hev.
Qed.

(** C5, as the code has it.  Stage 2 returns the text of the keyword
    agent's first final response as it is, whatever it contains: the
    answer is not parsed and its keywords are not counted. *)
Theorem extract_keywords_verbatim (script_content answer : str)
    (pre : list Event) (rest : stream) (st : State) :
  Forall (fun ev => is_final_response ev = false) pre ->
  run_async w (L "keyword_agent") USER_ID keyword_session_id
    (keyword_prompt script_content)
  = fold_right SEvent
      (SEvent {| is_final_response := true;
                 content_text := Return answer |} rest) pre ->
  extract_keywords w script_content st = (Return answer, st).
Proof.
  intros Hpre Hrun. unfold extract_keywords, lift.
  now rewrite Hrun, final_text_first.
Qed.

End PipelineFacts.

(** ** Runs in concrete worlds *)

Section Runs.

Import autonomous_agent complete_script_img_agent.

Definition no_module : exn :=
  Exn ModuleNotFoundError (L "No module named 'google.generativeai'").

(** C1.  In a process where [import google.generativeai] fails, the
    exception leaves [generate_video_content]: the tool does not return
    the [error] object that its handler would build. *)
Example generate_video_content_raises_past_boundary :
  generate_video_content
    (Demo.world (Some no_module) (Return (L "1. Cells have mitochondria."))
       SEnd SEnd)
    (L "powerhouse of the cell") 7 Demo.st0
  = (Raise no_module, Demo.st0).
Proof. reflexivity. Qed.

(** C6 fails for a negative count: with [scene_count = -1] and an
    answer of two lines the tool returns one content point, and one is
    more than minus one. *)
Lemma negative_scene_count_exceeds_bound :
  fst (generate_video_content (Demo.tools (L "a
b")) (L "cells") (-1) Demo.st0)
  = Return (Json.dumps (JDict [(L "content_points", JList [JStr (L "a")])]))
  /\ ~ (Z.of_nat (length [L "a"]) <= -1).
Proof. split; [vm_compute; reflexivity|cbn; lia]. Qed.

(** C8 fails for a key that is present and empty: the assertion
    fails. *)
Lemma empty_key_fails_startup :
  is_Some (({[ L "GOOGLE_API_KEY" := [] ]} : gmap str str)
             !! L "GOOGLE_API_KEY")
  /\ fst (autonomous_agent.startup ∅ {[ L "GOOGLE_API_KEY" := [] ]})
     = Raise (Exn AssertionError (L "Set GOOGLE_API_KEY in .env")).
Proof.
  split.
  - rewrite lookup_singleton_eq. eauto.
  - unfold autonomous_agent.startup. rewrite run_outcome.
    unfold Spec.startup_outcome, Spec.api_key.
    now rewrite lookup_singleton_eq.
Qed.


Definition made_folder : State :=
  {| fs_log := [Mkdir (L "generated_images") false true]; draws := 0 |}.


Definition accented_keywords : str :=
  L "{" ++ q (L "keywords") ++ L ": [" ++ q (L "Cell") ++ L ", "
    ++ q (L "caf" ++ ["233"%char]) ++ L ", " ++ q (L "ATP") ++ L "]}".

(** A keyword that the console cannot print ends the loop: the line for
    the second keyword raises, the report of that failure raises too and
    leaves the loop, and [generate_images] returns the empty list,
    although the placeholder of the first keyword has been written and
    no call on the file system has failed. *)
Example unprintable_keyword_abandons_loop :
  Spec.keyword_count (JsonRef.loads accented_keywords) = Some 3%nat
  /\ fst (generate_images Props.ascii_console accented_keywords
            (Pathlib.of_str (L "generated_images")) made_folder)
     = Return []
  /\ opened (fs_log (snd (generate_images Props.ascii_console
                            accented_keywords
                            (Pathlib.of_str (L "generated_images"))
                            made_folder)))
     = [L "generated_images/cell_1.txt"].
Proof. repeat split; vm_compute; reflexivity. Qed.

(** C7 fails across processes: the hash of a string is salted per
    process, and the same query gets another id, hence other URLs, in a
    process with another salt. *)
Lemma salted_hash_changes_urls :
  Z.abs (hash (Demo.tools []) (L "cell membrane")) mod 10000000
  <> Z.abs (hash (Demo.reseeded 1 (Demo.tools [])) (L "cell membrane"))
       mod 10000000
  /\ fst (search_stock_video (Demo.tools []) (L "cell membrane") Demo.st0)
     <> fst (search_stock_video (Demo.reseeded 1 (Demo.tools []))
               (L "cell membrane") Demo.st0).
Proof.
  split; [vm_compute; discriminate|].
  intros H. vm_compute in H. congruence.
Qed.





Definition one_keyword : str :=
  Json.dumps (JDict [(L "keywords", JList [JStr (L "mitochondria")])]).

(** C5 fails: when the keyword agent answers with one keyword, stage 2
    returns that answer, and one is not between five and eight. *)
Lemma single_keyword_passes_stage2 :
  fst (extract_keywords (Demo.pipeline Demo.script_answer one_keyword)
         Demo.script_answer Demo.st0)
  = Return one_keyword
  /\ Spec.keyword_count (JsonRef.loads one_keyword) = Some 1%nat
  /\ ~ (5 <= 1 <= 8)%nat.
Proof. repeat split; try (vm_compute; reflexivity). lia. Qed.

(** *** The theorems at concrete inputs *)

Definition numbered_answer : str := L "Here are the points:
1. Cells have mitochondria.
 2. They make ATP.
plain line".

Lemma generate_video_content_points_witness :
  0 <= 2
  /\ fst (generate_video_content (Demo.tools numbered_answer) (L "cells") 2
            Demo.st0)
     = Return (Json.dumps
                 (JDict [(L "content_points",
                          JList [JStr (L "Cells have mitochondria.");
                                 JStr (L "They make ATP.")])])).
Proof.
  split; [lia|].
  destruct (generate_video_content_points (Demo.tools numbered_answer)
              (L "cells") numbered_answer 2 Demo.st0) as [H _];
    [reflexivity|reflexivity|reflexivity|reflexivity|lia|].
  rewrite H. vm_compute. reflexivity.
Defined.

Lemma generate_audio_file_success_witness :
  exists out st',
    generate_audio_file_body (Demo.tools []) (L "hello") 3 Demo.st0
    = (Return out, st')
    /\ exists random_chars,
         length random_chars = 4%nat
         /\ generate_audio_file (Demo.tools []) (L "hello") 3 Demo.st0
            = (Return (Json.dumps
                         (JDict [(L "audio_file",
                                  JStr ((L "static/audio/" ++ PyStr.of_int 3
                                           ++ L "_" ++ random_chars)
                                          ++ L ".mp3"));
                                 (L "text", JStr (L "hello"))])), st').
Proof.
  eexists _, _. split; [vm_compute; reflexivity|].
  edestruct (generate_audio_file_success (Demo.tools []) (L "hello") 3
               Demo.st0) as (cs & Hlen & _ & Hres & _);
    [vm_compute; reflexivity|].
  exists cs. split; [exact Hlen|exact Hres].
Defined.








Lemma extract_keywords_verbatim_witness :
  extract_keywords (Demo.pipeline Demo.script_answer one_keyword)
    Demo.script_answer Demo.st0
  = (Return one_keyword, Demo.st0).
Proof.
  apply (extract_keywords_verbatim
           (Demo.pipeline Demo.script_answer one_keyword)
           Demo.script_answer one_keyword [] SEnd Demo.st0);
    [constructor|vm_compute; reflexivity].
Defined.

End Runs.
(** * Further properties of the code *)

(** ** More about strings *)

Section MoreStrings.

Lemma startswith_prefix (p b : str) : PyStr.startswith p (p ++ b) = true.
Proof.
  induction p as [|a p IH]; [reflexivity|]. cbn [app PyStr.startswith].
  destruct (ascii_dec a a); [exact IH|congruence].
Qed.

Lemma contains_intro (sub a b : str) :
  PyStr.contains sub (a ++ sub ++ b) = true.
Proof.
  induction a as [|c a IH]; cbn [app].
  - destruct (sub ++ b) eqn:E; cbn [PyStr.contains]; rewrite <- E;
      now rewrite startswith_prefix.
  - cbn [PyStr.contains]. rewrite IH. apply orb_true_r.
Qed.

(** An occurrence inside a part is an occurrence in the whole. *)
Lemma contains_infix (sub x a b : str) :
  PyStr.contains sub x = true -> PyStr.contains sub (a ++ x ++ b) = true.
Proof.
  intros H. apply contains_app in H as (c & d & ->).
  replace (a ++ (c ++ sub ++ d) ++ b) with ((a ++ c) ++ sub ++ (d ++ b))
    by (now rewrite <- !app_assoc).
  apply contains_intro.
Qed.

Lemma rstrip_prefix (s : str) : exists b, s = PyStr.rstrip s ++ b.
Proof.
  unfold PyStr.rstrip. destruct (lstrip_suffix (rev s)) as [a Ha].
  exists (rev a). rewrite <- rev_app_distr, <- Ha. now rewrite rev_involutive.
Qed.

(** What [strip] returns is a part of its argument. *)
Lemma strip_infix (s : str) : exists a b, s = a ++ PyStr.strip s ++ b.
Proof.
  destruct (lstrip_suffix s) as [a Ha].
  destruct (rstrip_prefix (PyStr.lstrip s)) as [b Hb].
  exists a, b. unfold PyStr.strip. now rewrite <- Hb.
Qed.

Lemma lstrip_lstrip (s : str) : PyStr.lstrip (PyStr.lstrip s) = PyStr.lstrip s.
Proof.
  destruct (PyStr.lstrip s) as [|c r] eqn:E; [reflexivity|].
  apply lstrip_head in E. cbn [PyStr.lstrip]. now rewrite E.
Qed.

(** Stripping twice is stripping once. *)
Lemma strip_strip (s : str) : PyStr.strip (PyStr.strip s) = PyStr.strip s.
Proof.
  assert (Hl : PyStr.lstrip (PyStr.strip s) = PyStr.strip s).
  { unfold PyStr.strip at 2.
    destruct (rstrip_prefix (PyStr.lstrip s)) as [b Hb].
    unfold PyStr.strip.
    destruct (PyStr.rstrip (PyStr.lstrip s)) as [|c r] eqn:E; [reflexivity|].
    cbn [app] in Hb. apply lstrip_head in Hb.
    cbn [PyStr.lstrip]. now rewrite Hb. }
  unfold PyStr.strip at 1. rewrite Hl.
  unfold PyStr.strip, PyStr.rstrip.
  now rewrite rev_involutive, lstrip_lstrip.
Qed.

Lemma after_first_is_suffix (sep : ascii) (s : str) :
  exists a, s = a ++ Spec.after_first sep s.
Proof.
  induction s as [|c s [a IH]]; cbn [Spec.after_first].
  - now exists [].
  - destruct (ascii_dec c sep).
    + now exists [c].
    + exists (c :: a). cbn [app]. now f_equal.
Qed.

Lemma after_first_clean_prefix (sep : ascii) (a t : str) :
  ~ In sep a -> Spec.after_first sep (a ++ sep :: t) = t.
Proof.
  induction a as [|c a IH]; cbn [app Spec.after_first In]; intros Hn.
  - destruct (ascii_dec sep sep); [reflexivity|congruence].
  - destruct (ascii_dec c sep); [tauto|]. apply IH. tauto.
Qed.

Lemma In_slice_to {A} (x : A) (n : Z) (l : list A) :
  In x (PyStr.slice_to n l) -> In x l.
Proof.
  unfold PyStr.slice_to. destruct (0 <=? n); apply In_firstn_inv.
Qed.

End MoreStrings.

(** ** More about [generate_video_content] *)

Section MoreVideoContent.

Import autonomous_agent.

(** What the tool returns when nothing raises: the points of the loop,
    cut by the slice. *)
Lemma generate_video_content_returns (w : World) (topic text : str)
    (scene_count : Z) (st : State) :
  import_genai w = None ->
  genai_configure w = None ->
  GenerativeModel w (L "gemini-2.0-flash") = None ->
  generate_content w (video_prompt topic scene_count) = Return text ->
  generate_video_content w topic scene_count st
  = (Return (Json.dumps
               (JDict [(L "content_points",
                        JList (map JStr
                                 (PyStr.slice_to scene_count
                                    (clean (PyStr.split nl text)))))])), st).
Proof.
  intros Himp Hcfg Hmodel Htext.
  unfold generate_video_content, generate_video_content_body.
  rewrite Himp, Hcfg, Hmodel, Htext. reflexivity.
Qed.

(** Every point of the loop comes from a kept line. *)
Lemma clean_point (lines : list str) (p : str) :
  In p (clean lines) ->
  exists raw, In raw lines
              /\ Spec.kept (PyStr.strip raw) = true
              /\ p = Spec.strip_numbering (PyStr.strip raw).
Proof.
  rewrite clean_spec. intros Hp.
  apply in_map_iff in Hp as (l & <- & Hl).
  apply filter_In in Hl as [Hl Hk].
  apply in_map_iff in Hl as (raw & <- & Hraw). eauto.
Qed.

(** X1.  A negative [scene_count] does not bound the list from above:
    the slice drops that many points from the end and keeps the others. *)
Theorem negative_count_drops_last_points (w : World) (topic text : str)
    (scene_count : Z) (st : State) :
  import_genai w = None ->
  genai_configure w = None ->
  GenerativeModel w (L "gemini-2.0-flash") = None ->
  generate_content w (video_prompt topic scene_count) = Return text ->
  scene_count < 0 ->
  let all := clean (PyStr.split nl text) in
  generate_video_content w topic scene_count st
  = (Return (Json.dumps
               (JDict [(L "content_points",
                        JList (map JStr
                                 (firstn (length all - Z.to_nat (- scene_count))
                                    all)))])), st).
Proof.
  intros Himp Hcfg Hmodel Htext Hneg all.
  rewrite (generate_video_content_returns w topic text scene_count st)
    by assumption.
  fold all. unfold PyStr.slice_to.
  destruct (0 <=? scene_count) eqn:Hle; [lia|].
  replace (Z.to_nat (Z.of_nat (length all) + scene_count))
    with (length all - Z.to_nat (- scene_count))%nat by lia.
  reflexivity.
Qed.

(** X2.  Every content point is stripped: it has no blank at either
    end. *)
Theorem content_points_are_stripped (lines : list str) (scene_count : Z) :
  Forall (fun p => PyStr.strip p = p)
    (PyStr.slice_to scene_count (clean lines)).
Proof.
  apply List.Forall_forall. intros p Hp. apply In_slice_to in Hp.
  apply clean_point in Hp as (raw & _ & _ & ->).
  unfold Spec.strip_numbering.
  destruct (Spec.numbered (PyStr.strip raw)); apply strip_strip.
Qed.

(** X3.  No content point contains one of the three phrases, in any
    letter case: removing the numbering cannot bring one back. *)
Theorem content_points_without_phrases (lines : list str) (scene_count : Z) :
  Forall (fun p => existsb (fun phrase =>
                              PyStr.contains phrase (PyStr.lower p)) phrases
                   = false)
    (PyStr.slice_to scene_count (clean lines)).
Proof.
  apply List.Forall_forall. intros p Hp. apply In_slice_to in Hp.
  apply clean_point in Hp as (raw & _ & Hk & ->).
  unfold Spec.kept in Hk. apply andb_true_iff in Hk as [_ Hm].
  apply negb_true_iff in Hm. unfold Spec.mentions_phrase in Hm.
  fold phrases in Hm.
  unfold Spec.strip_numbering.
  destruct (Spec.numbered (PyStr.strip raw)); [|exact Hm].
  match goal with |- ?x = false => destruct x eqn:He; [|reflexivity] end.
  apply existsb_exists in He as (phrase & Hin & Hc).
  destruct (after_first_is_suffix "."%char (PyStr.strip raw)) as [a Ha].
  destruct (strip_infix (Spec.after_first "."%char (PyStr.strip raw)))
    as (b & c & Hb).
  assert (Hline : PyStr.contains phrase (PyStr.lower (PyStr.strip raw)) = true).
  { rewrite Ha, Hb. unfold PyStr.lower. rewrite !map_app.
    rewrite app_assoc. now apply contains_infix. }
  assert (Ht : existsb (fun phrase =>
                          PyStr.contains phrase
                            (PyStr.lower (PyStr.strip raw))) phrases = true).
  { apply existsb_exists. eauto. }
  congruence.
Qed.

(** X4.  The numbering need not be a number: whatever stands before a
    period and a space among the first five characters of a line is
    removed with the period. *)
Theorem numbering_removal_takes_any_prefix (prefix rest : str) :
  (length prefix <= 3)%nat ->
  ~ In "."%char prefix ->
  PyStr.strip (prefix ++ L ". " ++ rest) = prefix ++ L ". " ++ rest ->
  existsb (fun phrase =>
             PyStr.contains phrase (PyStr.lower (prefix ++ L ". " ++ rest)))
    phrases = false ->
  clean [prefix ++ L ". " ++ rest] = [PyStr.strip rest].
Proof.
  intros Hlen Hdot Hstrip Hphr.
  unfold clean. cbn [fold_left]. rewrite clean_step_spec, Hstrip.
  assert (Hk : Spec.kept (prefix ++ L ". " ++ rest) = true).
  { unfold Spec.kept, Spec.mentions_phrase. fold phrases. rewrite Hphr.
    destruct prefix; reflexivity. }
  assert (Hn : Spec.numbered (prefix ++ L ". " ++ rest) = true).
  { unfold Spec.numbered. rewrite firstn_app.
    change (L ". " ++ rest) with ("."%char :: " "%char :: rest).
    destruct (5 - length prefix)%nat as [|[|k]] eqn:E; try lia.
    cbn [firstn].
    change ("."%char :: " "%char :: firstn k rest)
      with (L ". " ++ firstn k rest).
    apply contains_intro. }
  rewrite Hk. cbn [app]. unfold Spec.strip_numbering. rewrite Hn.
  change (L ". " ++ rest) with ("."%char :: " "%char :: rest).
  rewrite after_first_clean_prefix by assumption.
  reflexivity.
Qed.

End MoreVideoContent.

(** ** More about [search_stock_video] and [generate_audio_file] *)

Section MoreTools.

Import autonomous_agent.

Lemma lower_char_not_upper (c : ascii) :
  Props.is_upper (PyStr.lower_char c) = false.
Proof. destruct c as [[] [] [] [] [] [] [] []]; reflexivity. Qed.

(** X5.  The slug that [search_stock_video] puts into both URLs has no
    space, no period and no upper-case ASCII letter. *)
Theorem search_stock_video_slug_shape (w : World) (query : str) (st : State) :
  exists clean_query,
    search_stock_video w query st
    = (Return (Json.dumps
                 (JDict [(L "video",
                          JStr (video_url (Z.abs (hash w query) mod 10000000)
                                  clean_query (L ".mp4")));
                         (L "poster",
                          JStr (video_url (Z.abs (hash w query) mod 10000000)
                                  clean_query (L ".jpg")))])), st)
    /\ Forall (fun c => c <> " "%char /\ c <> "."%char
                        /\ Props.is_upper c = false) clean_query.
Proof.
  eexists. split; [reflexivity|]. rewrite clean_query_slug. unfold Spec.slug.
  apply List.Forall_forall. intros c Hc.
  apply filter_In in Hc as [Hc Hdot].
  apply negb_true_iff, bool_decide_eq_false in Hdot.
  apply in_map_iff in Hc as (x & <- & Hx).
  apply in_map_iff in Hx as (y & <- & _).
  pose proof (lower_char_not_upper y) as Hup.
  destruct (ascii_dec (PyStr.lower_char y) " "%char) as [He|Hne].
  - repeat split; discriminate.
  - repeat split; assumption.
Qed.

(** What any run of the body of [generate_audio_file] does to the
    state. *)
Lemma audio_body_effects (w : World) (text : str) (index : Z) (st : State) :
  exists r st' new,
    generate_audio_file_body w text index st = (r, st')
    /\ fs_log st' = fs_log st ++ new
    /\ (draws st' <= draws st + 4)%nat
    /\ (length (opened new) <= 1)%nat
    /\ forall p, In p (opened new) ->
         exists cs, length cs = 4%nat
                    /\ Forall (fun c => In c alphabet) cs
                    /\ p = (L "static/audio/" ++ PyStr.of_int index ++ L "_"
                              ++ cs) ++ L ".txt".
Proof.
  unfold generate_audio_file_body. unfold bind at 1. unfold fs at 1.
  destruct (fs_fault w (fs_log st) (Mkdir (L "static/audio") true true))
    eqn:Emk.
  { exists (Raise e), st, []. rewrite app_nil_r.
    repeat split; cbn; try lia; try tauto. }
  unfold bind at 1.
  destruct (random_chars_spec w 4
              {| fs_log := fs_log st ++ [Mkdir (L "static/audio") true true];
                 draws := draws st |}) as (cs & Hcs & Hlen & Hall).
  rewrite Hcs. cbn [fs_log draws].
  rewrite (audio_placeholder_path index cs Hall).
  set (stem := L "static/audio/" ++ PyStr.of_int index ++ L "_" ++ cs).
  repeat (unfold bind, with_open_w, fs, ret; cbv beta).
  cbn [fs_log draws].
  repeat match goal with
         | |- context [fs_fault w ?l ?c] =>
             destruct (fs_fault w l c) eqn:?;
             cbv beta iota; cbn [fs_log draws]
         end;
    (eexists _, _, _; split; [reflexivity|]; cbn [fs_log draws];
     split; [rewrite <- ?app_assoc; reflexivity|];
     split; [lia|];
     cbn [opened flat_map app length];
     split; [lia|];
     intros p Hp; cbn [In] in Hp;
     try (destruct Hp as [<-|[]]; exists cs; auto); try tauto).
Qed.

(** X6.  Whatever happens, [generate_audio_file] returns; it makes at
    most four random draws, and the only path it may open for writing is
    a placeholder [static/audio/{index}_CCCC.txt]: never an [.mp3], and
    never more than one file. *)
Theorem generate_audio_file_effects (w : World) (text : str) (index : Z)
    (st : State) :
  exists out st' new,
    generate_audio_file w text index st = (Return out, st')
    /\ fs_log st' = fs_log st ++ new
    /\ (draws st' <= draws st + 4)%nat
    /\ (length (opened new) <= 1)%nat
    /\ forall p, In p (opened new) ->
         exists cs, length cs = 4%nat
                    /\ Forall (fun c => In c alphabet) cs
                    /\ p = (L "static/audio/" ++ PyStr.of_int index ++ L "_"
                              ++ cs) ++ L ".txt".
Proof.
  destruct (audio_body_effects w text index st)
    as (r & st' & new & Hb & Hlog & Hdraws & Hlen & Hpaths).
  unfold generate_audio_file, try_except. rewrite Hb.
  destruct r as [out|e]; unfold ret; eauto 10.
Qed.

(** X7.  When the placeholder can be created and both lines are accepted
    but closing the file raises (a full disk: the lines are buffered and
    the flush at the close fails), the tool returns the [error] object in
    place of the audio file it had named; the directory is made, four
    characters are drawn, and the placeholder is created. *)
Theorem generate_audio_file_reports_failed_close (w : World) (text : str)
    (index : Z) (st : State) (e : exn) :
  fs_fault w (fs_log st) (Mkdir (L "static/audio") true true) = None ->
  (forall p,
      fs_fault w (fs_log st ++ [Mkdir (L "static/audio") true true])
        (OpenW p) = None) ->
  (forall p,
      fs_fault w (fs_log st ++ [Mkdir (L "static/audio") true true; OpenW p])
        (Write p (audio_line1 text)) = None) ->
  (forall p,
      fs_fault w
        (fs_log st ++ [Mkdir (L "static/audio") true true; OpenW p;
                       Write p (audio_line1 text)])
        (Write p audio_line2) = None) ->
  (forall p,
      fs_fault w
        (fs_log st ++ [Mkdir (L "static/audio") true true; OpenW p;
                       Write p (audio_line1 text); Write p audio_line2])
        (Close p) = Some e) ->
  exists cs,
    let placeholder := (L "static/audio/" ++ PyStr.of_int index ++ L "_" ++ cs)
                         ++ L ".txt" in
    length cs = 4%nat
    /\ generate_audio_file w text index st
       = (Return (error_json e),
          {| fs_log := fs_log st ++ [Mkdir (L "static/audio") true true;
                                     OpenW placeholder;
                                     Write placeholder (audio_line1 text);
                                     Write placeholder audio_line2];
             draws := draws st + 4 |}).
Proof.
  intros Hmk Hopen Hw1 Hw2 Hclose.
  unfold generate_audio_file, try_except, generate_audio_file_body.
  unfold bind at 1. unfold fs at 1. rewrite Hmk.
  unfold bind at 1.
  destruct (random_chars_spec w 4
              {| fs_log := fs_log st ++ [Mkdir (L "static/audio") true true];
                 draws := draws st |}) as (cs & Hcs & Hlen & Hall).
  rewrite Hcs. cbn [fs_log draws].
  rewrite (audio_placeholder_path index cs Hall).
  exists cs. cbv zeta. split; [exact Hlen|].
  set (p := (L "static/audio/" ++ PyStr.of_int index ++ L "_" ++ cs)
              ++ L ".txt").
  specialize (Hopen p). specialize (Hw1 p). specialize (Hw2 p).
  specialize (Hclose p).
  repeat (unfold bind, with_open_w, fs, ret; cbv beta).
  cbn [fs_log draws].
  rewrite Hopen. cbv beta iota. cbn [fs_log draws].
  rewrite <- app_assoc. cbn [app].
  rewrite Hw1. cbv beta iota. cbn [fs_log draws].
  rewrite <- app_assoc. cbn [app].
  rewrite Hw2. cbv beta iota. cbn [fs_log draws].
  rewrite <- app_assoc. cbn [app].
  rewrite Hclose. reflexivity.
Qed.

End MoreTools.

(** ** The serialized results *)

Section MoreJson.

Import autonomous_agent.

Lemma escape_char_printable (c : ascii) :
  forallb Props.printable (Json.escape_char c) = true.
Proof. destruct c as [[] [] [] [] [] [] [] []]; reflexivity. Qed.

Lemma dumps_str_printable (s : str) :
  forallb Props.printable (Json.dumps_str s) = true.
Proof.
  unfold Json.dumps_str, q. cbn [forallb]. rewrite forallb_app.
  replace (forallb Props.printable (flat_map Json.escape_char s)) with true;
    [reflexivity|].
  induction s as [|c s IH]; [reflexivity|].
  cbn [flat_map]. now rewrite forallb_app, escape_char_printable, <- IH.
Qed.

Lemma join_printable (sep : str) (l : list str) :
  forallb Props.printable sep = true ->
  Forall (fun x => forallb Props.printable x = true) l ->
  forallb Props.printable (PyStr.join sep l) = true.
Proof.
  intros Hsep. induction 1 as [|x l Hx Hl IH]; [reflexivity|].
  cbn [PyStr.join]. destruct l as [|y l]; [exact Hx|].
  now rewrite !forallb_app, Hx, Hsep, IH.
Qed.

Lemma dumps_list_of_strings (points : list str) :
  Json.dumps (JList (map JStr points))
  = L "[" ++ PyStr.join (L ", ") (map Json.dumps_str points) ++ L "]".
Proof. cbn [Json.dumps]. now rewrite map_map. Qed.

Lemma dumps_one_field (k : str) (v : json) :
  Json.dumps (JDict [(k, v)])
  = L "{" ++ (Json.dumps_str k ++ L ": " ++ Json.dumps v) ++ L "}".
Proof. reflexivity. Qed.

Lemma error_json_printable (e : exn) :
  forallb Props.printable (error_json e) = true.
Proof.
  unfold error_json. cbn [Json.dumps map fst snd PyStr.join].
  now rewrite !forallb_app, !dumps_str_printable.
Qed.

(** X8.  Whatever characters the model's answer, the query or the
    narration text contain, the string a tool returns is made of
    printable ASCII characters only: no line break, no control character,
    nothing above the tilde. *)
Theorem tool_results_are_printable_ascii (w : World) :
  (forall topic scene_count st out st',
      generate_video_content w topic scene_count st = (Return out, st') ->
      forallb Props.printable out = true)
  /\ (forall query st out st',
         search_stock_video w query st = (Return out, st') ->
         forallb Props.printable out = true)
  /\ (forall text index st out st',
         generate_audio_file w text index st = (Return out, st') ->
         forallb Props.printable out = true).
Proof.
  split; [|split].
  - intros topic scene_count st out st'.
    unfold generate_video_content, generate_video_content_body.
    unfold bind, call, try_except, lift, ret, raise.
    destruct (import_genai w); [discriminate|].
    destruct (genai_configure w); [discriminate|].
    destruct (GenerativeModel w (L "gemini-2.0-flash")).
    { intros H. apply run_inv in H as [<- _]. apply error_json_printable. }
    destruct (generate_content w (video_prompt topic scene_count)) as [text|e].
    + intros H. apply run_inv in H as [<- _].
      rewrite dumps_one_field, dumps_list_of_strings.
      rewrite !forallb_app, dumps_str_printable.
      rewrite join_printable; [reflexivity|reflexivity|].
      apply List.Forall_forall. intros x Hx.
      apply in_map_iff in Hx as (p & <- & _). apply dumps_str_printable.
    + intros H. apply run_inv in H as [<- _]. apply error_json_printable.
  - intros query st out st' H.
    unfold search_stock_video, try_except, ret in H.
    apply run_inv in H as [<- _].
    cbn [Json.dumps map fst snd PyStr.join].
    now rewrite !forallb_app, !dumps_str_printable.
  - intros text index st out st' H.
    unfold generate_audio_file, try_except in H.
    destruct (generate_audio_file_body w text index st) as [[o|e] s1] eqn:Hb.
    + apply run_inv in H as [<- _].
      destruct (audio_body_returns w text index st s1 o Hb)
        as (cs & _ & _ & Hres & _).
      unfold generate_audio_file, try_except in Hres. rewrite Hb in Hres.
      apply run_inv in Hres as [-> _].
      cbn [Json.dumps map fst snd PyStr.join].
      now rewrite !forallb_app, !dumps_str_printable.
    + unfold ret in H. apply run_inv in H as [<- _].
      apply error_json_printable.
Qed.

End MoreJson.

(** ** The placeholder paths of [generate_images] *)

Section MorePaths.

Import complete_script_img_agent.

Lemma split_nosep (sep : ascii) (t : str) :
  ~ In sep t -> PyStr.split sep t = [t].
Proof.
  induction t as [|c t IH]; [reflexivity|]. cbn [In PyStr.split]. intros Hn.
  destruct (ascii_dec c sep); [tauto|]. rewrite IH by tauto. reflexivity.
Qed.

(** Text without separator, appended to a string, goes to the last
    piece of the split. *)
Lemma split_app_tail (sep : ascii) (name tail : str) :
  ~ In sep tail ->
  exists init seg,
    PyStr.split sep name = init ++ [seg]
    /\ PyStr.split sep (name ++ tail) = init ++ [seg ++ tail].
Proof.
  intros Hn. induction name as [|c name (init & seg & H1 & H2)].
  - exists [], []. split; [reflexivity|]. now apply split_nosep.
  - cbn [app PyStr.split]. destruct (ascii_dec c sep).
    + exists ([] :: init), seg. now rewrite H1, H2.
    + rewrite H1, H2. destruct init as [|x init].
      * now exists [], (c :: seg).
      * now exists ((c :: x) :: init), seg.
Qed.

Lemma join_snoc (sep : str) (l : list str) (x : str) :
  exists pre, PyStr.join sep (l ++ [x]) = pre ++ x.
Proof.
  induction l as [|a l [pre IH]].
  - now exists [].
  - cbn [app PyStr.join]. destruct (l ++ [x]) eqn:E.
    + now destruct l.
    + rewrite IH. exists (a ++ sep ++ pre). now rewrite <- !app_assoc.
Qed.

Lemma to_str_snoc (r : str) (ps : list str) (x : str) :
  exists pre, Pathlib.to_str {| Pathlib.root := r; Pathlib.parts := ps ++ [x] |}
              = pre ++ x.
Proof.
  unfold Pathlib.to_str. cbn [Pathlib.root Pathlib.parts].
  destruct (join_snoc (L "/") ps x) as [pre Hpre].
  assert (Hne : ps ++ [x] <> []) by now destruct ps.
  destruct r, (ps ++ [x]) eqn:E; try congruence; rewrite Hpre.
  - now exists pre.
  - exists (a :: r ++ pre). cbn [app]. now rewrite app_assoc.
Qed.

Lemma name_tail_no_slash (i : nat) : ~ In "/"%char (Props.name_tail i).
Proof.
  unfold Props.name_tail. rewrite !in_app_iff. intros [H|[H|H]].
  - cbn in H. intuition discriminate.
  - assert (Hall : Forall (fun c => c <> "/"%char)
                     (PyStr.of_int (Z.of_nat i + 1))).
    { apply of_int_Forall. intros c Hc. cbn in Hc.
      intuition (subst; discriminate). }
    exact (proj1 (List.Forall_forall _ _) Hall _ H eq_refl).
  - cbn in H. intuition discriminate.
Qed.

(** The last component of a file name survives the normalisation of
    the path. *)
Lemma parts_of_tail (name : str) (i : nat) :
  exists ps seg,
    Pathlib.parts_of (name ++ Props.name_tail i) = ps ++ [seg ++ Props.name_tail i].
Proof.
  destruct (split_app_tail "/"%char name (Props.name_tail i) (name_tail_no_slash i))
    as (init & seg & _ & H).
  unfold Pathlib.parts_of. rewrite H, List.filter_app.
  eexists _, seg. f_equal. cbn [List.filter].
  assert (Hlen : (2 <= length (seg ++ Props.name_tail i))%nat).
  { rewrite length_app. unfold Props.name_tail. rewrite !length_app. cbn. lia. }
  destruct (seg ++ Props.name_tail i) as [|c [|d t]] eqn:E; cbn in Hlen; try lia.
  cbn [PyStr.truthy andb]. unfold PyStr.eqb.
  now rewrite bool_decide_eq_false_2 by discriminate.
Qed.

(** Every descriptor ends with the number of its keyword. *)
Lemma descriptor_tail (output_folder : Pathlib.Path) (i : nat) (keyword : str) :
  exists pre, Spec.descriptor output_folder i keyword = pre ++ Props.name_tail i.
Proof.
  unfold Spec.descriptor. fold (Props.name_tail i).
  set (name := PyStr.lower (PyStr.replace (L " ") (L "_") keyword)).
  destruct (parts_of_tail name i) as (ps & seg & Hps).
  unfold Pathlib.div, Pathlib.of_str.
  destruct (PyStr.truthy (Pathlib.root_of (name ++ Props.name_tail i))).
  - rewrite Hps.
    destruct (to_str_snoc (Pathlib.root_of (name ++ Props.name_tail i)) ps
                (seg ++ Props.name_tail i)) as [pre ->].
    exists (pre ++ seg). now rewrite <- app_assoc.
  - rewrite Hps, app_assoc.
    destruct (to_str_snoc (Pathlib.root output_folder)
                (Pathlib.parts output_folder ++ ps) (seg ++ Props.name_tail i))
      as [pre ->].
    exists (pre ++ seg). now rewrite <- app_assoc.
Qed.

(** X9.  Within a run, and even across output folders, two keywords at
    different positions never get the same placeholder path: no
    placeholder overwrites another. *)
Theorem descriptors_differ_by_index (folder folder' : Pathlib.Path)
    (i j : nat) (keyword keyword' : str) :
  Spec.descriptor folder i keyword = Spec.descriptor folder' j keyword' ->
  i = j.
Proof.
  destruct (descriptor_tail folder i keyword) as [pre ->].
  destruct (descriptor_tail folder' j keyword') as [pre' ->].
  unfold Props.name_tail. intros H.
  assert (H' : (pre ++ "_"%char :: PyStr.of_int (Z.of_nat i + 1)) ++ L ".txt"
               = (pre' ++ "_"%char :: PyStr.of_int (Z.of_nat j + 1))
                   ++ L ".txt")
    by (rewrite <- !app_assoc; exact H).
  clear H. rename H' into H.
  apply app_inv_tail in H.
  apply (f_equal (@rev ascii)) in H. rewrite !rev_app_distr in H.
  cbn [rev] in H. rewrite <- !app_assoc in H. cbn [app] in H.
  assert (Hu : forall n, ~ In "_"%char (rev (PyStr.of_int n))).
  { intros n Hn. apply in_rev in Hn.
    assert (Hall : Forall (fun c => c <> "_"%char) (PyStr.of_int n)).
    { apply of_int_Forall. intros c Hc. cbn in Hc.
      intuition (subst; discriminate). }
    exact (proj1 (List.Forall_forall _ _) Hall _ Hn eq_refl). }
  apply clean_prefix_unique in H; [|apply Hu|apply Hu].
  apply (f_equal (@rev ascii)) in H. rewrite !rev_involutive in H.
  apply of_int_inj in H. lia.
Qed.

Lemma lower_char_keeps_slash (c : ascii) :
  PyStr.lower_char c = "/"%char -> c = "/"%char.
Proof.
  destruct c as [[] [] [] [] [] [] [] []]; intros H; try reflexivity;
    vm_compute in H; discriminate H.
Qed.

Lemma name_no_slash (keyword : str) :
  ~ In "/"%char keyword ->
  ~ In "/"%char (PyStr.lower (PyStr.replace (L " ") (L "_") keyword)).
Proof.
  intros Hk. change (L " ") with [" "%char]. change (L "_") with ["_"%char].
  rewrite replace_char_map. unfold PyStr.lower. intros H.
  apply in_map_iff in H as (x & Hx & Hin).
  apply lower_char_keeps_slash in Hx.
  apply in_map_iff in Hin as (y & Hy & Hin).
  destruct (ascii_dec y " "%char); [subst; discriminate|].
  subst. contradiction.
Qed.

Lemma root_of_nosep (f : str) : ~ In "/"%char f -> Pathlib.root_of f = [].
Proof.
  destruct f as [|c f]; [reflexivity|]. cbn [In]. intros Hn.
  unfold Pathlib.root_of. change (L "//") with ["/"%char; "/"%char].
  change (L "/") with ["/"%char]. cbn [PyStr.startswith].
  destruct (ascii_dec "/"%char c) as [<-|]; [tauto|reflexivity].
Qed.

(** X10.  For a keyword without a slash the placeholder lies directly in
    [generated_images]: its name is the keyword in lower case with
    underscores for spaces, then an underscore, the position counted from
    one, and [.txt]. *)
Theorem descriptor_of_plain_keyword (i : nat) (keyword : str) :
  ~ In "/"%char keyword ->
  Spec.descriptor (Pathlib.of_str (L "generated_images")) i keyword
  = L "generated_images/"
      ++ PyStr.lower (PyStr.replace (L " ") (L "_") keyword)
      ++ L "_" ++ PyStr.of_int (Z.of_nat i + 1) ++ L ".txt".
Proof.
  intros Hk. unfold Spec.descriptor. fold (Props.name_tail i).
  set (name := PyStr.lower (PyStr.replace (L " ") (L "_") keyword)).
  assert (Hf : ~ In "/"%char (name ++ Props.name_tail i)).
  { rewrite in_app_iff. intros [H|H].
    - now apply name_no_slash in H.
    - now apply name_tail_no_slash in H. }
  assert (Hparts : Pathlib.parts_of (name ++ Props.name_tail i)
                   = [name ++ Props.name_tail i]).
  { destruct (parts_of_tail name i) as (ps & seg & Hps).
    unfold Pathlib.parts_of in *. rewrite split_nosep in * by assumption.
    cbn [List.filter] in *.
    destruct (PyStr.truthy (name ++ Props.name_tail i)
              && negb (PyStr.eqb (name ++ Props.name_tail i) (L ".")));
      [reflexivity|]. now destruct ps. }
  unfold Pathlib.div. rewrite (root_of_nosep _ Hf), Hparts.
  cbn [PyStr.truthy].
  change (Pathlib.of_str (L "generated_images"))
    with {| Pathlib.root := []; Pathlib.parts := [L "generated_images"] |}.
  cbn [Pathlib.root Pathlib.parts app Pathlib.to_str PyStr.join].
  unfold Props.name_tail. reflexivity.
Qed.

Lemma root_of_absolute (rest : str) :
  Pathlib.root_of ("/"%char :: rest) = L "/"
  \/ Pathlib.root_of ("/"%char :: rest) = L "//".
Proof.
  unfold Pathlib.root_of.
  destruct (PyStr.startswith (L "//") ("/"%char :: rest)
            && negb (PyStr.startswith (L "///") ("/"%char :: rest)));
    [now right|left].
  change (L "/") with ["/"%char]. cbn [PyStr.startswith].
  now destruct (ascii_dec "/"%char "/"%char).
Qed.

Lemma div_absolute (folder : Pathlib.Path) (rest : str) :
  Pathlib.div folder ("/"%char :: rest) = Pathlib.of_str ("/"%char :: rest).
Proof.
  unfold Pathlib.div. now destruct (root_of_absolute rest) as [-> | ->].
Qed.

Lemma to_str_absolute (rest : str) :
  PyStr.startswith (L "/")
    (Pathlib.to_str (Pathlib.of_str ("/"%char :: rest))) = true.
Proof.
  unfold Pathlib.to_str, Pathlib.of_str. cbn [Pathlib.root Pathlib.parts].
  now destruct (root_of_absolute rest) as [-> | ->].
Qed.

Lemma absolute_file_name (i : nat) (k : str) :
  exists rest,
    PyStr.lower (PyStr.replace (L " ") (L "_") ("/"%char :: k))
      ++ L "_" ++ PyStr.of_int (Z.of_nat i + 1) ++ L ".txt"
    = "/"%char :: rest.
Proof.
  change (L " ") with [" "%char]. change (L "_") with ["_"%char] at 1.
  rewrite replace_char_map. cbn [map PyStr.lower app]. eexists.
  f_equal.
Qed.

(** X11.  A keyword that begins with a slash takes its placeholder out of
    the output folder: the path is absolute and the same whatever folder
    was given. *)
Theorem absolute_keyword_escapes_folder (folder folder' : Pathlib.Path)
    (i : nat) (keyword : str) :
  PyStr.startswith (L "/") keyword = true ->
  Spec.descriptor folder i keyword = Spec.descriptor folder' i keyword
  /\ PyStr.startswith (L "/") (Spec.descriptor folder i keyword) = true.
Proof.
  intros Hk. apply startswith_app in Hk as [k ->].
  change (L "/" ++ k) with ("/"%char :: k).
  unfold Spec.descriptor.
  destruct (absolute_file_name i k) as [rest ->].
  rewrite !div_absolute. split; [reflexivity|apply to_str_absolute].
Qed.

End MorePaths.

(** ** What [generate_images] does to the file system *)

Section MoreImages.

Import complete_script_img_agent.

Variable w : World.





Lemma descriptors_of_characters (output_folder : Pathlib.Path) (s : str)
    (i : nat) :
  Spec.descriptors output_folder i (map (fun c => JStr [c]) s)
  = imap (fun j c => Spec.descriptor output_folder (i + j) [c]) s.
Proof.
  revert i. induction s as [|c s IH]; intros i; [reflexivity|].
  cbn [map Spec.descriptors imap]. f_equal.
  - f_equal. lia.
  - rewrite IH. apply imap_ext. intros j x _. cbn. f_equal. lia.
Qed.

(** X13.  When the answer holds a string under [keywords] where a list is
    asked for, the loop runs over its characters: without faults there is
    one placeholder per character, named after the character and its
    position. *)
Theorem string_keywords_give_a_file_per_character (keywords_json : str)
    (output_folder : Pathlib.Path) (st : State)
    (kvs : list (str * json)) (s : str) :
  json_loads w keywords_json = Return (JDict kvs) ->
  dict_get (L "keywords") kvs = Some (JStr s) ->
  GenerativeModel w (L "gemini-2.0-flash") = None ->
  (forall log c, fs_fault w log c = None) ->
  exists st',
    generate_images w keywords_json output_folder st
    = (Return (imap (fun j c => Spec.descriptor output_folder j [c]) s), st').
Proof.
  intros Hload Hget Hmodel Hok.
  unfold generate_images, try_except, generate_images_body, bind, lift.
  rewrite Hload. cbn [get_keywords]. rewrite Hget. cbn [py_len py_iter].
  unfold print, call, ret. rewrite Hok, Hmodel.
  destruct (image_loop_no_fault w output_folder (length s)
              (map (fun c => JStr [c]) s) 0 [] st Hok) as [st' Hl].
  { apply List.Forall_forall. intros v Hv.
    apply in_map_iff in Hv as (c & <- & _). now exists [c]. }
  rewrite Hl. cbn [app]. rewrite descriptors_of_characters. eauto.
Qed.

End MoreImages.

(** ** Runs of the pipeline *)

Section MorePipeline.

Import complete_script_img_agent.

Variable w : World.





End MorePipeline.

(** ** The key at start-up *)

Section MoreStartup.

(** X16.  [load_dotenv] does not override: a [GOOGLE_API_KEY] that is set
    but empty in the environment hides the key of the [.env] file, and
    each of the three modules fails its assertion whatever the file
    holds. *)
Theorem empty_environment_key_hides_dotenv (dotenv os_environ : gmap str str) :
  os_environ !! L "GOOGLE_API_KEY" = Some [] ->
  autonomous_agent.startup dotenv os_environ
  = (Raise (Exn AssertionError (L "Set GOOGLE_API_KEY in .env")), [])
  /\ script_agent.startup dotenv os_environ
     = (Raise (Exn AssertionError (L "Set GOOGLE_API_KEY in .env")), [])
  /\ complete_script_img_agent.startup dotenv os_environ
     = (Raise (Exn AssertionError (L "Set GOOGLE_API_KEY in .env")), []).
Proof.
  intros Henv.
  unfold autonomous_agent.startup, script_agent.startup,
    complete_script_img_agent.startup.
  rewrite !run_outcome.
  unfold Spec.startup_outcome, Spec.api_key. rewrite Henv. auto.
Qed.

End MoreStartup.

(** ** [GenerateVideoADK.start] *)

Section MoreStart.

Import autonomous_agent_run.

Variable w : World.
Variable run : str -> str -> str -> str -> State -> estream * State.



(** X19.  [start] never returns an answer that it has not saved: when it
    returns, the agent had given that answer, and the last three calls of
    the log open the output file, write the answer and close the file. *)
Theorem start_returns_only_what_it_saved (self : GenerateVideoADK)
    (text : str) (st st' : State) :
  start w run self st = (Return text, st') ->
  exists st1,
    create_video_content w run (topic self) (language self)
      (scene_count self) st = (Return text, st1)
    /\ st' = {| fs_log := fs_log st1 ++ [OpenW (output_file self);
                                         Write (output_file self) text;
                                         Close (output_file self)];
                draws := draws st1 |}.
Proof.
  unfold start. unfold bind at 1.
  destruct (create_video_content w run (topic self) (language self)
              (scene_count self) st) as [[result|e] st1]; [|discriminate].
  repeat (unfold bind, with_open_w, fs, ret; cbv beta).
  destruct (fs_fault w (fs_log st1) (OpenW (output_file self)));
    [discriminate|].
  cbv beta iota. cbn [fs_log draws].
  destruct (fs_fault w (fs_log st1 ++ [OpenW (output_file self)])
              (Write (output_file self) result));
    cbv beta iota; cbn [fs_log draws].
  { destruct (fs_fault w _ _); discriminate. }
  destruct (fs_fault w _ (Close (output_file self))); [discriminate|].
  cbv beta iota. cbn [fs_log draws].
  intros H. apply run_inv in H as [<- <-].
  exists st1. split; [reflexivity|]. now rewrite <- !app_assoc.
Qed.



End MoreStart.

(** ** The further properties at concrete inputs *)

Section MoreRuns.

Import autonomous_agent complete_script_img_agent.

Lemma negative_count_drops_last_points_witness :
  -1 < 0
  /\ generate_video_content (Demo.tools Props.three_points) (L "cells") (-1)
       Demo.st0
     = (Return (Json.dumps
                  (JDict [(L "content_points",
                           JList [JStr (L "Mitochondria make ATP.");
                                  JStr (L "They have two membranes.")])])),
        Demo.st0).
Proof.
  split; [lia|].
  pose proof (negative_count_drops_last_points
                (Demo.tools Props.three_points) (L "cells")
                Props.three_points (-1) Demo.st0
                eq_refl eq_refl eq_refl eq_refl eq_refl) as H.
  cbv zeta in H. rewrite H. vm_compute. reflexivity.
Defined.

Lemma numbering_removal_takes_any_prefix_witness :
  clean [L "DNA" ++ L ". " ++ L "It stores the genes."]
  = [L "It stores the genes."].
Proof.
  rewrite (numbering_removal_takes_any_prefix (L "DNA")
             (L "It stores the genes."));
    [reflexivity
    |cbn; lia
    |cbn; intros [H|[H|[H|[]]]]; discriminate H
    |vm_compute; reflexivity
    |vm_compute; reflexivity].
Defined.

Lemma generate_audio_file_reports_failed_close_witness :
  exists cs,
    length cs = 4%nat
    /\ generate_audio_file Props.full_disk (L "hello") 3 Demo.st0
       = (Return (error_json Props.no_space),
          {| fs_log :=
               [Mkdir (L "static/audio") true true;
                OpenW ((L "static/audio/" ++ PyStr.of_int 3 ++ L "_" ++ cs)
                         ++ L ".txt");
                Write ((L "static/audio/" ++ PyStr.of_int 3 ++ L "_" ++ cs)
                         ++ L ".txt") (audio_line1 (L "hello"));
                Write ((L "static/audio/" ++ PyStr.of_int 3 ++ L "_" ++ cs)
                         ++ L ".txt") audio_line2];
             draws := 4 |}).
Proof.
  destruct (generate_audio_file_reports_failed_close Props.full_disk
              (L "hello") 3 Demo.st0 Props.no_space) as [cs H];
    try (intros; reflexivity).
  exists cs. exact H.
Defined.

Lemma tool_results_are_printable_ascii_witness :
  exists out st',
    search_stock_video (Demo.tools []) (L "Krebs cycle.	Step 1") Demo.st0
    = (Return out, st')
    /\ forallb Props.printable out = true.
Proof.
  eexists _, _. split; [reflexivity|].
  apply (proj1 (proj2 (tool_results_are_printable_ascii (Demo.tools [])))
           (L "Krebs cycle.	Step 1") Demo.st0 _ Demo.st0 eq_refl).
Defined.

Lemma descriptors_differ_by_index_witness :
  Spec.descriptor (Pathlib.of_str (L "out")) 0 (L "a/b")
  = Spec.descriptor (Pathlib.of_str (L "out/a")) 0 (L "b")
  /\ Spec.descriptor (Pathlib.of_str (L "out")) 0 (L "a/b")
     <> Spec.descriptor (Pathlib.of_str (L "out/a")) 1 (L "b").
Proof.
  split; [vm_compute; reflexivity|].
  intros H. apply descriptors_differ_by_index in H. discriminate H.
Defined.

Lemma descriptor_of_plain_keyword_witness :
  Spec.descriptor (Pathlib.of_str (L "generated_images")) 0
    (L "Cell Membrane")
  = L "generated_images/cell_membrane_1.txt".
Proof.
  rewrite (descriptor_of_plain_keyword 0 (L "Cell Membrane"));
    [vm_compute; reflexivity|].
  cbn. intros H. repeat (destruct H as [H|H]; [discriminate H|]). exact H.
Defined.

Lemma absolute_keyword_escapes_folder_witness :
  Spec.descriptor (Pathlib.of_str (L "generated_images")) 0 (L "/tmp/cell")
  = Spec.descriptor (Pathlib.of_str (L "elsewhere")) 0 (L "/tmp/cell")
  /\ PyStr.startswith (L "/")
       (Spec.descriptor (Pathlib.of_str (L "generated_images")) 0
          (L "/tmp/cell")) = true.
Proof.
  apply (absolute_keyword_escapes_folder
           (Pathlib.of_str (L "generated_images"))
           (Pathlib.of_str (L "elsewhere")) 0 (L "/tmp/cell")).
  reflexivity.
Defined.

Lemma string_keywords_give_a_file_per_character_witness :
  exists st',
    generate_images Props.quiet Props.string_keywords
      (Pathlib.of_str (L "generated_images")) Demo.st0
    = (Return [L "generated_images/a_1.txt"; L "generated_images/t_2.txt";
               L "generated_images/p_3.txt"], st').
Proof.
  destruct (string_keywords_give_a_file_per_character Props.quiet
              Props.string_keywords (Pathlib.of_str (L "generated_images"))
              Demo.st0 [(L "keywords", JStr (L "ATP"))] (L "ATP"))
    as [st' H];
    [vm_compute; reflexivity|vm_compute; reflexivity|reflexivity
    |intros; reflexivity|].
  exists st'. rewrite H. vm_compute. reflexivity.
Defined.



Lemma empty_environment_key_hides_dotenv_witness :
  autonomous_agent.startup {[ L "GOOGLE_API_KEY" := L "AIza-good-key" ]}
    {[ L "GOOGLE_API_KEY" := [] ]}
  = (Raise (Exn AssertionError (L "Set GOOGLE_API_KEY in .env")), [])
  /\ script_agent.startup {[ L "GOOGLE_API_KEY" := L "AIza-good-key" ]}
       {[ L "GOOGLE_API_KEY" := [] ]}
     = (Raise (Exn AssertionError (L "Set GOOGLE_API_KEY in .env")), [])
  /\ complete_script_img_agent.startup
       {[ L "GOOGLE_API_KEY" := L "AIza-good-key" ]}
       {[ L "GOOGLE_API_KEY" := [] ]}
     = (Raise (Exn AssertionError (L "Set GOOGLE_API_KEY in .env")), []).
Proof.
  apply empty_environment_key_hides_dotenv. apply lookup_singleton_eq.
Defined.


Lemma start_returns_only_what_it_saved_witness :
  exists st1,
    autonomous_agent_run.create_video_content Props.quiet
      (Props.one_tool_call Props.quiet Props.answer)
      (L "powerhouse of the cell") (L "en") 7 Demo.st0
    = (Return Props.answer, st1)
    /\ snd (autonomous_agent_run.start Props.quiet
              (Props.one_tool_call Props.quiet Props.answer) Props.video
              Demo.st0)
       = {| fs_log := fs_log st1
                        ++ [OpenW (autonomous_agent_run.output_file Props.video);
                            Write (autonomous_agent_run.output_file Props.video)
                              Props.answer;
                            Close (autonomous_agent_run.output_file Props.video)];
            draws := draws st1 |}.
Proof.
  apply (start_returns_only_what_it_saved Props.quiet
           (Props.one_tool_call Props.quiet Props.answer) Props.video
           Props.answer Demo.st0).
  vm_compute. reflexivity.
Defined.



End MoreRuns.
